(** * pyspark-docker-api: the cleaning pipeline, the chunk consolidation job
      and the query API, embedded from the Python sources.

    - [Spark]       src/scripts/spark_job.py
    - [Consolidate] src/scripts/consolidate_chunks.py
    - [Api]         src/api/main.py

    Doubles are IEEE-754 binary64 values, taken from the Standard Library's
    executable specification [spec_float] (precision 53, emax 1024).  SQL
    nulls and Python's [None] are [None]/explicit null constructors. *)

From Stdlib Require Import ZArith List String Ascii Bool Lia DecimalString.
From Stdlib Require Import Floats.SpecFloat Floats.FloatOps.
From stdpp Require Import base option gmap strings list.

Open Scope Z_scope.

(* ===================================================================== *)
(** * Doubles *)
(* ===================================================================== *)

Definition double := spec_float.

(** Conversion of an integer to the nearest double (a cast of an integer
    literal or of a [long] column). *)
Definition lit (z : Z) : double := binary_normalize prec emax z 0 false.

Definition ddiv (x y : double) : double := SFdiv prec emax x y.
Definition dmul (x y : double) : double := SFmul prec emax x y.

Definition is_nan (x : double) : bool :=
  match x with S754_nan => true | _ => false end.

Definition is_zero (x : double) : bool :=
  match x with S754_zero _ => true | _ => false end.

(* ===================================================================== *)
(** * src/scripts/spark_job.py *)
(* ===================================================================== *)

Module Spark.

(** ** Column expressions of Spark SQL

    A column expression evaluates, on one row, to a nullable value.  Boolean
    expressions are three-valued; [DataFrame.filter] keeps the rows on which
    the condition is [true] (neither [false] nor null). *)

Definition bcol := option bool.

(** [a & b]: Kleene conjunction. *)
Definition and3 (a b : bcol) : bcol :=
  match a, b with
  | Some false, _ => Some false
  | _, Some false => Some false
  | Some true, Some true => Some true
  | _, _ => None
  end.

Infix "&&&" := and3 (at level 40, left associativity).

Definition isNotNull {A} (c : option A) : bcol :=
  Some (match c with Some _ => true | None => false end).

Definition lift2 {A B} (f : A -> A -> B) (x y : option A) : option B :=
  match x, y with
  | Some a, Some b => Some (f a b)
  | _, _ => None
  end.

(** Spark's ordering of doubles: [NaN = NaN], and [NaN] is larger than any
    other value; otherwise the IEEE order (with [-0.0 = 0.0]). *)
Definition dcompare (x y : double) : comparison :=
  match SFcompare x y with
  | Some c => c
  | None => if is_nan x then (if is_nan y then Eq else Gt) else Lt
  end.

Definition dlt (x y : double) : bool :=
  match dcompare x y with Lt => true | _ => false end.
Definition dle (x y : double) : bool :=
  match dcompare x y with Gt => false | _ => true end.

(** Comparisons of an integer column with an integer literal. *)
Definition ige (c : option Z) (n : Z) : bcol := lift2 Z.geb c (Some n).
Definition ile (c : option Z) (n : Z) : bcol := lift2 Z.leb c (Some n).
Definition ieq (c : option Z) (n : Z) : bcol := lift2 Z.eqb c (Some n).

(** Comparisons of a double column with an integer literal, which is cast
    to double. *)
Definition fgt (c : option double) (n : Z) : bcol :=
  lift2 (fun a b => dlt b a) c (Some (lit n)).
Definition flt (c : option double) (n : Z) : bcol :=
  lift2 dlt c (Some (lit n)).
Definition fge (c : option double) (n : Z) : bcol :=
  lift2 (fun a b => dle b a) c (Some (lit n)).
Definition fle (c : option double) (n : Z) : bcol :=
  lift2 dle c (Some (lit n)).

(** [col.isin(values)] for a list of non-null literals. *)
Definition isin (c : option Z) (values : list Z) : bcol :=
  match c with
  | Some v => Some (existsb (Z.eqb v) values)
  | None => None
  end.

(** [a / b] on doubles: null when an operand is null or the divisor is zero
    (the non-ANSI behaviour of Spark's [Divide]). *)
Definition div (x y : option double) : option double :=
  match x, y with
  | Some a, Some b => if is_zero b then None else Some (ddiv a b)
  | _, _ => None
  end.

Definition mul (x y : option double) : option double := lift2 dmul x y.

(** [when(c, v).otherwise(e)]. *)
Definition when_otherwise {A} (c : bcol) (v e : option A) : option A :=
  match c with Some true => v | _ => e end.

(** [df.filter(cond)]. *)
Definition keep {R} (cond : R -> bcol) (r : R) : bool :=
  match cond r with Some true => true | _ => false end.

Definition df_filter {R} (cond : R -> bcol) (df : list R) : list R :=
  List.filter (keep cond) df.

(** ** Rows

    [schema]: the seventeen nullable fields.  The two datetime columns are
    strings when read and timestamps after [to_timestamp]; the row type is
    parameterised by the type of these two columns. *)

Record row (T : Type) := Row {
  VendorID : option Z;
  tpep_pickup_datetime : option T;
  tpep_dropoff_datetime : option T;
  passenger_count : option Z;
  trip_distance : option double;
  RatecodeID : option Z;
  store_and_fwd_flag : option string;
  PULocationID : option Z;
  DOLocationID : option Z;
  payment_type : option Z;
  fare_amount : option double;
  extra : option double;
  mta_tax : option double;
  tip_amount : option double;
  tolls_amount : option double;
  improvement_surcharge : option double;
  total_amount : option double
}.

Arguments Row {T}.
Arguments VendorID {T}.
Arguments tpep_pickup_datetime {T}.
Arguments tpep_dropoff_datetime {T}.
Arguments passenger_count {T}.
Arguments trip_distance {T}.
Arguments RatecodeID {T}.
Arguments store_and_fwd_flag {T}.
Arguments PULocationID {T}.
Arguments DOLocationID {T}.
Arguments payment_type {T}.
Arguments fare_amount {T}.
Arguments extra {T}.
Arguments mta_tax {T}.
Arguments tip_amount {T}.
Arguments tolls_amount {T}.
Arguments improvement_surcharge {T}.
Arguments total_amount {T}.

(** A timestamp is a number of microseconds since the epoch. *)
Definition timestamp := Z.

(** [unix_timestamp(ts)]: whole seconds since the epoch. *)
Definition unix_timestamp (c : option timestamp) : option Z :=
  match c with Some t => Some (t / 1000000) | None => None end.

(** Rows of [df_enriched]: the parsed row and the six derived columns. *)
Record enriched := Enriched {
  base : row timestamp;
  trip_duration_minutes : option double;
  pickup_hour : option Z;
  pickup_day_of_week : option Z;
  pickup_month : option Z;
  speed_mph : option double;
  tip_percentage : option double
}.

(** ** The job *)

(** #1: [df_filtered_early] *)
Definition ValidityFilter {T} (r : row T) : bcol :=
  isNotNull (tpep_pickup_datetime r) &&&
  isNotNull (tpep_dropoff_datetime r) &&&
  isNotNull (passenger_count r) &&&
  isNotNull (trip_distance r) &&&
  isNotNull (fare_amount r) &&&
  ige (passenger_count r) 1 &&& ile (passenger_count r) 8 &&&
  fgt (trip_distance r) 0 &&& flt (trip_distance r) 500 &&&
  fgt (fare_amount r) 0 &&& flt (fare_amount r) 1000 &&&
  fgt (total_amount r) 0 &&& flt (total_amount r) 1000 &&&
  fge (tip_amount r) 0 &&&
  isin (RatecodeID r) [1; 2; 3; 4; 5; 6] &&&
  isin (payment_type r) [1; 2; 3; 4; 5; 6].

Definition df_filtered_early (df : list (row string)) : list (row string) :=
  df_filter ValidityFilter df.

Section Job.

(** Functions of Spark's SQL library; the datetime ones depend on the
    session time zone. *)
Variable to_timestamp : string -> string -> option timestamp.
Variables year hour dayofweek month : timestamp -> Z.

Definition fmt : string := "MM/dd/yyyy hh:mm:ss a".

(** [to_timestamp(col, fmt)] on a nullable string column. *)
Definition to_timestamp_col (c : option string) : option timestamp :=
  match c with Some s => to_timestamp s fmt | None => None end.

(** #2: the two [withColumn] calls replacing the datetime columns. *)
Definition DeriveColumns (r : row string) : row timestamp :=
  {| VendorID := VendorID r;
     tpep_pickup_datetime := to_timestamp_col (tpep_pickup_datetime r);
     tpep_dropoff_datetime := to_timestamp_col (tpep_dropoff_datetime r);
     passenger_count := passenger_count r;
     trip_distance := trip_distance r;
     RatecodeID := RatecodeID r;
     store_and_fwd_flag := store_and_fwd_flag r;
     PULocationID := PULocationID r;
     DOLocationID := DOLocationID r;
     payment_type := payment_type r;
     fare_amount := fare_amount r;
     extra := extra r;
     mta_tax := mta_tax r;
     tip_amount := tip_amount r;
     tolls_amount := tolls_amount r;
     improvement_surcharge := improvement_surcharge r;
     total_amount := total_amount r |}.

Definition df_with_timestamps (df : list (row string)) : list (row timestamp) :=
  List.map DeriveColumns (df_filtered_early df).

(** #3: [df_date_filtered] *)
Definition DateFilter (r : row timestamp) : bcol :=
  isNotNull (tpep_pickup_datetime r) &&&
  isNotNull (tpep_dropoff_datetime r) &&&
  lift2 Z.ltb (tpep_pickup_datetime r) (tpep_dropoff_datetime r) &&&
  ieq (option_map year (tpep_pickup_datetime r)) 2018 &&&
  ieq (option_map year (tpep_dropoff_datetime r)) 2018.

Definition df_date_filtered (df : list (row string)) : list (row timestamp) :=
  df_filter DateFilter (df_with_timestamps df).

(** #4: [df_enriched], one [withColumn] after the other; [speed_mph]
    reads the [trip_duration_minutes] column computed before it. *)
Definition Enrichment (r : row timestamp) : enriched :=
  let duration :=
    div (option_map lit
           (lift2 Z.sub (unix_timestamp (tpep_dropoff_datetime r))
                        (unix_timestamp (tpep_pickup_datetime r))))
        (Some (lit 60)) in
  {| base := r;
     trip_duration_minutes := duration;
     pickup_hour := option_map hour (tpep_pickup_datetime r);
     pickup_day_of_week := option_map dayofweek (tpep_pickup_datetime r);
     pickup_month := option_map month (tpep_pickup_datetime r);
     speed_mph :=
       when_otherwise (fgt duration 0)
         (div (trip_distance r) (div duration (Some (lit 60))))
         (Some (lit 0));
     tip_percentage :=
       when_otherwise (fgt (fare_amount r) 0)
         (mul (div (tip_amount r) (fare_amount r)) (Some (lit 100)))
         (Some (lit 0)) |}.

Definition df_enriched (df : list (row string)) : list enriched :=
  List.map Enrichment (df_date_filtered df).

(** Final filters: [df_final] *)
Definition RangeFilter (e : enriched) : bcol :=
  fge (trip_duration_minutes e) 1 &&& fle (trip_duration_minutes e) 480 &&&
  fge (speed_mph e) 0 &&& fle (speed_mph e) 80 &&&
  fge (tip_percentage e) 0 &&& fle (tip_percentage e) 50.

Definition df_final (df : list (row string)) : list enriched :=
  df_filter RangeFilter (df_enriched df).

End Job.

(** ** The filter contracts, in the words of the specification

    The order on doubles is the engine's ([dcompare]). *)

Definition d_lt (x y : double) : Prop := dcompare x y = Lt.
Definition d_le (x y : double) : Prop := dcompare x y <> Gt.

Definition strictly_between (lo hi : Z) (c : option double) : Prop :=
  exists d, c = Some d /\ d_lt (lit lo) d /\ d_lt d (lit hi).

Definition within (lo hi : Z) (c : option double) : Prop :=
  exists d, c = Some d /\ d_le (lit lo) d /\ d_le d (lit hi).

(** The condition of [df_filtered_early], clause by clause, in Spark's
    order of doubles. *)
Definition ValidityFilter_engine {T} (r : row T) : Prop :=
  (tpep_pickup_datetime r <> None /\ tpep_dropoff_datetime r <> None /\
   passenger_count r <> None /\ trip_distance r <> None /\
   fare_amount r <> None) /\
  (exists n, passenger_count r = Some n /\ 1 <= n <= 8) /\
  strictly_between 0 500 (trip_distance r) /\
  strictly_between 0 1000 (fare_amount r) /\
  strictly_between 0 1000 (total_amount r) /\
  (exists t, tip_amount r = Some t /\ d_le (lit 0) t) /\
  (exists c, RatecodeID r = Some c /\ 1 <= c <= 6) /\
  (exists p, payment_type r = Some p /\ 1 <= p <= 6).

(** The order of numbers on doubles, as IEEE 754 has it: a NaN is neither
    below nor above anything, itself included. *)
Definition ieee_lt (x y : double) : Prop := SFltb x y = true.
Definition ieee_le (x y : double) : Prop := SFleb x y = true.

(** [lo < c < hi] for a column of doubles that is not null. *)
Definition above_and_below (lo hi : Z) (c : option double) : Prop :=
  exists d, c = Some d /\ ieee_lt (lit lo) d /\ ieee_lt d (lit hi).

(** The bounds of the contract on every column but [tip_amount]. *)
Definition ValidityFilter_bounds {T} (r : row T) : Prop :=
  (tpep_pickup_datetime r <> None /\ tpep_dropoff_datetime r <> None /\
   passenger_count r <> None /\ trip_distance r <> None /\
   fare_amount r <> None) /\
  (exists n, passenger_count r = Some n /\ 1 <= n <= 8) /\
  above_and_below 0 500 (trip_distance r) /\
  above_and_below 0 1000 (fare_amount r) /\
  above_and_below 0 1000 (total_amount r) /\
  (exists c, RatecodeID r = Some c /\ 1 <= c <= 6) /\
  (exists p, payment_type r = Some p /\ 1 <= p <= 6).

(** The contract of the validity filter as the specification words it,
    with [tip_amount >= 0]. *)
Definition ValidityFilter_spec {T} (r : row T) : Prop :=
  ValidityFilter_bounds r /\
  (exists t, tip_amount r = Some t /\ ieee_le (lit 0) t).

(** The contract as amended: a [tip_amount] that is NaN passes as well,
    since Spark orders NaN above every number. *)
Definition ValidityFilter_amended {T} (r : row T) : Prop :=
  ValidityFilter_bounds r /\
  (exists t, tip_amount r = Some t /\ (ieee_le (lit 0) t \/ is_nan t = true)).

Definition RangeFilter_spec (e : enriched) : Prop :=
  within 1 480 (trip_duration_minutes e) /\
  within 0 80 (speed_mph e) /\
  within 0 50 (tip_percentage e).

(** ** A session in the UTC time zone, for the examples *)

Module UTC.

Definition digit (c : ascii) : option Z :=
  let n := Z.of_nat (nat_of_ascii c) in
  if (48 <=? n) && (n <=? 57) then Some (n - 48) else None.

Fixpoint digits (s : string) (acc : Z) : option Z :=
  match s with
  | EmptyString => Some acc
  | String c s' =>
      match digit c with
      | Some d => digits s' (10 * acc + d)
      | None => None
      end
  end.

Definition field (s : string) (start len : nat) : option Z :=
  digits (substring start len s) 0.

(** Days since 1970-01-01 of a proleptic Gregorian date. *)
Definition days_from_civil (y m d : Z) : Z :=
  let y' := if m <=? 2 then y - 1 else y in
  let era := y' / 400 in
  let yoe := y' - era * 400 in
  let doy := (153 * (if 2 <? m then m - 3 else m + 9) + 2) / 5 + d - 1 in
  let doe := yoe * 365 + yoe / 4 - yoe / 100 + doy in
  era * 146097 + doe - 719468.

Definition civil_from_days (days : Z) : Z * Z * Z :=
  let z := days + 719468 in
  let era := z / 146097 in
  let doe := z - era * 146097 in
  let yoe := (doe - doe / 1460 + doe / 36524 - doe / 146096) / 365 in
  let doy := doe - (365 * yoe + yoe / 4 - yoe / 100) in
  let mp := (5 * doy + 2) / 153 in
  let d := doy - (153 * mp + 2) / 5 + 1 in
  let m := if mp <? 10 then mp + 3 else mp - 9 in
  ((if m <=? 2 then yoe + era * 400 + 1 else yoe + era * 400), m, d).

(** A string in the layout [MM/dd/yyyy hh:mm:ss a], read as UTC. *)
Definition to_timestamp (s _fmt : string) : option timestamp :=
  match field s 0 2, field s 3 2, field s 6 4,
        field s 11 2, field s 14 2, field s 17 2 with
  | Some mo, Some d, Some y, Some h, Some mi, Some se =>
      let pm := String.eqb (substring 20 2 s) "PM" in
      let am := String.eqb (substring 20 2 s) "AM" in
      if (String.length s =? 22)%nat && (am || pm) &&
         (1 <=? mo) && (mo <=? 12) && (1 <=? d) && (d <=? 31) &&
         (1 <=? h) && (h <=? 12) && (mi <=? 59) && (se <=? 59)
      then
        let h24 := (h mod 12) + (if pm then 12 else 0) in
        Some ((days_from_civil y mo d * 86400 + h24 * 3600 + mi * 60 + se)
              * 1000000)
      else None
  | _, _, _, _, _, _ => None
  end.

Definition days_of (t : timestamp) : Z := t / 86400000000.
Definition year (t : timestamp) : Z := fst (fst (civil_from_days (days_of t))).
Definition month (t : timestamp) : Z := snd (fst (civil_from_days (days_of t))).
Definition hour (t : timestamp) : Z := (t / 3600000000) mod 24.
(** 1 = Sunday, ..., 7 = Saturday. *)
Definition dayofweek (t : timestamp) : Z := (days_of t + 4) mod 7 + 1.

End UTC.

(** Example rows. *)
Definition trip (pickup dropoff : string) (passengers : Z) : row string :=
  {| VendorID := Some 1;
     tpep_pickup_datetime := Some pickup;
     tpep_dropoff_datetime := Some dropoff;
     passenger_count := Some passengers;
     trip_distance := Some (ddiv (lit 25) (lit 10));
     RatecodeID := Some 1;
     store_and_fwd_flag := Some "N";
     PULocationID := Some 41;
     DOLocationID := Some 24;
     payment_type := Some 1;
     fare_amount := Some (lit 10);
     extra := Some (lit 0);
     mta_tax := Some (ddiv (lit 5) (lit 10));
     tip_amount := Some (lit 2);
     tolls_amount := Some (lit 0);
     improvement_surcharge := Some (ddiv (lit 3) (lit 10));
     total_amount := Some (ddiv (lit 128) (lit 10)) |}.

Definition trip_ok : row string :=
  trip "01/15/2018 08:30:00 AM" "01/15/2018 08:45:00 AM" 1.
Definition trip_nine_passengers : row string :=
  trip "01/15/2018 08:30:00 AM" "01/15/2018 08:45:00 AM" 9.
Definition trip_zero_minutes : row string :=
  trip "01/15/2018 08:30:00 AM" "01/15/2018 08:30:00 AM" 1.

Definition trip_unparseable : row string :=
  trip "2018-01-15 08:30:00" "01/15/2018 08:45:00 AM" 1.

(** [trip_ok] with a tip that the CSV reader parsed from the text NaN. *)
Definition trip_nan_tip : row string :=
  {| VendorID := VendorID trip_ok;
     tpep_pickup_datetime := tpep_pickup_datetime trip_ok;
     tpep_dropoff_datetime := tpep_dropoff_datetime trip_ok;
     passenger_count := passenger_count trip_ok;
     trip_distance := trip_distance trip_ok;
     RatecodeID := RatecodeID trip_ok;
     store_and_fwd_flag := store_and_fwd_flag trip_ok;
     PULocationID := PULocationID trip_ok;
     DOLocationID := DOLocationID trip_ok;
     payment_type := payment_type trip_ok;
     fare_amount := fare_amount trip_ok;
     extra := extra trip_ok;
     mta_tax := mta_tax trip_ok;
     tip_amount := Some S754_nan;
     tolls_amount := tolls_amount trip_ok;
     improvement_surcharge := improvement_surcharge trip_ok;
     total_amount := total_amount trip_ok |}.

(** The contract of the validity filter as the specification states it:
    a raw row is kept exactly when it meets [ValidityFilter_spec]. *)
Definition keeps_exactly_the_valid_rows : Prop :=
  forall (df : list (row string)) (r : row string),
    In r (df_filtered_early df) <-> In r df /\ ValidityFilter_spec r.

Definition utc_enrich (r : row string) : enriched :=
  Enrichment UTC.hour UTC.dayofweek UTC.month (DeriveColumns UTC.to_timestamp r).

Definition utc_final : list (row string) -> list enriched :=
  df_final UTC.to_timestamp UTC.year UTC.hour UTC.dayofweek UTC.month.

End Spark.

(* ===================================================================== *)
(** * src/scripts/consolidate_chunks.py *)
(* ===================================================================== *)

Module Consolidate.

(** [sorted(paths)]: Python orders strings by code point, which on UTF-8
    text is the order of [String.leb]. *)
Fixpoint insert (x : string) (l : list string) : list string :=
  match l with
  | [] => [x]
  | y :: l' => if String.leb x y then x :: l else y :: insert x l'
  end.

Definition sorted (l : list string) : list string := fold_right insert [] l.

Section Frames.

(** The rows of a chunk are opaque to the job. *)
Variable record : Type.

Definition DataFrame := list record.

(** The files matched by [<chunk>/*.parquet], in the order [glob] lists
    them, each with what [pd.read_parquet] returns on it ([None] when it
    raises). *)
Definition files := list (string * option DataFrame).

(** What the job sees of one path matched by [PARQUET_PATH/chunk_*]: its
    parquet files; what [shutil.rmtree] does on it, [None] when it returns
    and the folder is gone, [Some kept] when it raises, with [kept] the
    parquet files it had not deleted by then; and whether
    [os.listdir(PARQUET_PATH)] names it, as it does unless [PARQUET_PATH]
    holds a wildcard that [glob] expands to another directory. *)
Record chunk := Chunk {
  parquet_files : files;
  rmtree : option files;
  listed : bool
}.

(** The environment and the file system around one run. *)
Record world := World {
  PARQUET_PATH : option string;      (* os.getenv("PARQUET_PATH") *)
  chunk_folders : gmap string chunk; (* glob(chunk_pattern), by path *)
  other_entries : bool;              (* PARQUET_PATH lists something else *)
  root_exists : bool;                (* os.path.exists(PARQUET_PATH) *)
  consolidated_inside : bool;        (* the consolidated path is an entry of
                                        PARQUET_PATH, as when PARQUET_PATH
                                        ends in a separator *)
  rmdir_ok : bool;                   (* os.listdir and os.rmdir on
                                        PARQUET_PATH return *)
  to_parquet_ok : bool;              (* whether pd.concat and
                                        df_final.to_parquet return *)
  written : list (string * DataFrame) (* files written so far, newest first *)
}.

Definition with_chunks (w : world) (m : gmap string chunk) : world :=
  {| PARQUET_PATH := PARQUET_PATH w; chunk_folders := m;
     other_entries := other_entries w; root_exists := root_exists w;
     consolidated_inside := consolidated_inside w; rmdir_ok := rmdir_ok w;
     to_parquet_ok := to_parquet_ok w; written := written w |}.

Definition with_written (w : world) (l : list (string * DataFrame)) : world :=
  {| PARQUET_PATH := PARQUET_PATH w; chunk_folders := chunk_folders w;
     other_entries := other_entries w; root_exists := root_exists w;
     consolidated_inside := consolidated_inside w; rmdir_ok := rmdir_ok w;
     to_parquet_ok := to_parquet_ok w; written := l |}.

Definition with_root (w : world) (b : bool) : world :=
  {| PARQUET_PATH := PARQUET_PATH w; chunk_folders := chunk_folders w;
     other_entries := other_entries w; root_exists := b;
     consolidated_inside := consolidated_inside w; rmdir_ok := rmdir_ok w;
     to_parquet_ok := to_parquet_ok w; written := written w |}.

Definition glob (w : world) : list string := (map_to_list (chunk_folders w)).*1.

(** [shutil.rmtree(chunk_folder)] on the folders: the folder goes, or the
    call raises and the folder stays with what was not yet deleted. *)
Definition after_rmtree (c : chunk) : option chunk :=
  match rmtree c with
  | None => None
  | Some kept => Some {| parquet_files := kept; rmtree := Some kept;
                         listed := listed c |}
  end.

(** [not os.listdir(PARQUET_PATH)], once the consolidated file is written:
    no chunk folder of the directory is left, it held nothing else, and the
    consolidated file is not inside it. *)
Definition listdir_empty (w : world) : bool :=
  forallb (fun pc => negb (listed pc.2)) (map_to_list (chunk_folders w)) &&
  negb (other_entries w) && negb (consolidated_inside w).

(** The loop's variables. *)
Record loop_state := LoopState {
  fs : world;
  all_data : list DataFrame;
  total_records : Z
}.

(** One iteration of the [for] loop over the sorted chunk folders.  A
    [continue] and the [except] branch both leave the state as it is at
    that point. *)
Definition process_chunk (st : loop_state) (chunk_folder : string) : loop_state :=
  match chunk_folders (fs st) !! chunk_folder with
  | None => st
  | Some c =>
      match parquet_files c with
      | [] => st                                        (* continue *)
      | (parquet_file, content) :: _ =>
          match content with
          | None => st                                  (* read raises *)
          | Some df_chunk =>
              let all_data' := all_data st ++ [df_chunk] in
              let total' := total_records st + Z.of_nat (length df_chunk) in
              {| fs := with_chunks (fs st)
                         (partial_alter (fun _ => after_rmtree c) chunk_folder
                                        (chunk_folders (fs st)));
                 all_data := all_data'; total_records := total' |}
          end
      end
  end.

Definition process_chunks (st : loop_state) (paths : list string) : loop_state :=
  fold_left process_chunk paths st.

(** [consolidate_chunks_and_cleanup()]: the returned path, or [None], and
    the file system it leaves. *)
Definition consolidate_chunks_and_cleanup (w : world) : option string * world :=
  match PARQUET_PATH w with
  | None => (None, w)
  | Some "" => (None, w)
  | Some path =>
      let found := glob w in
      match found with
      | [] => (None, w)
      | _ :: _ =>
          let st := process_chunks
                      {| fs := w; all_data := []; total_records := 0 |}
                      (sorted found) in
          match all_data st with
          | [] => (None, fs st)
          | _ =>
              let df_final := concat (all_data st) in
              let consolidated_path := path +:+ "_consolidated.parquet" in
              if to_parquet_ok (fs st) then
                let w1 := with_written (fs st)
                            ((consolidated_path, df_final) :: written (fs st)) in
                let w2 :=
                  if root_exists w1 && rmdir_ok w1 && listdir_empty w1
                  then with_root w1 false
                  else w1 in                            (* except: pass *)
                (Some consolidated_path, w2)
              else (None, fs st)                        (* except: return None *)
          end
      end
  end.

(** The contract as the specification words it: sources are deleted only
    when the job succeeds. *)
Definition deletes_sources_only_on_success : Prop :=
  forall w,
    fst (consolidate_chunks_and_cleanup w) = None ->
    chunk_folders (snd (consolidate_chunks_and_cleanup w)) = chunk_folders w.

(** Whether the run gets as far as the loop: [PARQUET_PATH] is set. *)
Definition runs (w : world) : bool :=
  match PARQUET_PATH w with
  | None => false
  | Some path => negb (String.eqb path "")
  end.

(** What the first parquet file of a chunk folder contributes. *)
Definition contribution (w : world) (p : string) : list DataFrame :=
  match chunk_folders w !! p with
  | Some c =>
      match parquet_files c with
      | (_, Some df_chunk) :: _ => [df_chunk]
      | _ => []
      end
  | None => []
  end.

(** What the loop leaves of a chunk folder: one that contributes goes
    through [rmtree], the others stay as they are. *)
Definition after_loop (w : world) (p : string) : option chunk :=
  match chunk_folders w !! p with
  | Some c => match contribution w p with
              | [] => Some c
              | _ :: _ => after_rmtree c
              end
  | None => None
  end.

(** A chunk folder the loop consumes: its first parquet file is read and
    the folder is removed. *)
Definition consumed (w : world) (p : string) : bool :=
  match contribution w p, after_loop w p with
  | _ :: _, None => true
  | _, _ => false
  end.

(** The amended contract is about chunk folders as a partitioned write
    leaves them, one parquet file each. *)
Definition one_part_per_chunk (w : world) : bool :=
  forallb (fun pc => (length (parquet_files pc.2) <=? 1)%nat)
          (map_to_list (chunk_folders w)).

(** The frames of the parquet files of a chunk folder, those that can be
    read. *)
Definition folder_frames (w : world) (p : string) : list DataFrame :=
  match chunk_folders w !! p with
  | Some c => omap snd (parquet_files c)
  | None => []
  end.

(** A chunk folder is deleted right after it is read: what is left of it
    is what [rmtree] leaves. *)
Definition deleted_once_read (w : world) (p : string) : option chunk :=
  match chunk_folders w !! p with
  | Some c => match folder_frames w p with
              | [] => Some c
              | _ :: _ => after_rmtree c
              end
  | None => None
  end.

End Frames.

Arguments Chunk {record}.
Arguments World {record}.
Arguments parquet_files {record}.
Arguments rmtree {record}.
Arguments listed {record}.
Arguments PARQUET_PATH {record}.
Arguments chunk_folders {record}.
Arguments other_entries {record}.
Arguments root_exists {record}.
Arguments consolidated_inside {record}.
Arguments rmdir_ok {record}.
Arguments to_parquet_ok {record}.
Arguments written {record}.
Arguments glob {record}.
Arguments after_rmtree {record}.
Arguments listdir_empty {record}.
Arguments fs {record}.
Arguments all_data {record}.
Arguments total_records {record}.
Arguments LoopState {record}.
Arguments process_chunk {record}.
Arguments process_chunks {record}.
Arguments consolidate_chunks_and_cleanup {record}.
Arguments consumed {record}.
Arguments runs {record}.
Arguments contribution {record}.
Arguments after_loop {record}.
Arguments one_part_per_chunk {record}.
Arguments folder_frames {record}.
Arguments deleted_once_read {record}.

(** Example: two readable chunks and a disk on which the final write fails. *)
Definition two_chunks (write_ok : bool) : world Z :=
  {| PARQUET_PATH := Some "out";
     chunk_folders :=
       {[ "out/chunk_2" := Chunk [("part-0.parquet", Some [30])] None true;
          "out/chunk_1" := Chunk [("part-0.parquet", Some [10; 20])] None true ]};
     other_entries := false;
     root_exists := true;
     consolidated_inside := false;
     rmdir_ok := true;
     to_parquet_ok := write_ok;
     written := [] |}.

(** A run without [PARQUET_PATH] in the environment. *)
Definition no_path (record : Type) : world record :=
  {| PARQUET_PATH := None;
     chunk_folders := {[ "chunk_1" := Chunk [("part-0.parquet", Some [])] None true ]};
     other_entries := false;
     root_exists := true;
     consolidated_inside := false;
     rmdir_ok := true;
     to_parquet_ok := true;
     written := [] |}.

(** [PARQUET_PATH] with a separator at its end: the consolidated file is
    written inside the chunk directory. *)
Definition trailing_separator : world Z :=
  {| PARQUET_PATH := Some "out/";
     chunk_folders :=
       {[ "out/chunk_1" := Chunk [("part-0.parquet", Some [10; 20])] None true ]};
     other_entries := false;
     root_exists := true;
     consolidated_inside := true;
     rmdir_ok := true;
     to_parquet_ok := true;
     written := [] |}.

End Consolidate.

(* ===================================================================== *)
(** * src/api/main.py *)
(* ===================================================================== *)

Module Api.

(** ** Exceptions and outcomes *)

(** The exceptions the module raises or meets.  An f-string that
    interpolates a caught exception, [f"{prefix}{str(e)}"], is kept as
    [Fmt prefix e]. *)
Inductive exn :=
| ValueError (msg : string)
| TypeError (msg : string)
| FileNotFoundError (msg : string)
| HTTPException (status_code : Z) (detail : message)
with message :=
| Text (s : string)
| Fmt (prefix : string) (e : exn).

(** The outcome of a call: a value, an exception, or [Beyond] when the call
    reaches a corner of pandas or of Python outside the fragment modelled
    here (named at each place where it is produced).  [Beyond] is not an
    exception: no [except] clause catches it. *)
Inductive result (A : Type) :=
| Ok (a : A)
| Raise (e : exn)
| Beyond.

Arguments Ok {A}.
Arguments Raise {A}.
Arguments Beyond {A}.

#[global] Instance result_bind : MBind result := fun A B k m =>
  match m with
  | Ok a => k a
  | Raise e => Raise e
  | Beyond => Beyond
  end.

(** [try: body except Exception as e: raise handler(e)]. *)
Definition try_except {A} (body : result A) (handler : exn -> exn) : result A :=
  match body with
  | Raise e => Raise (handler e)
  | r => r
  end.

Fixpoint mapM {A B} (f : A -> result B) (l : list A) : result (list B) :=
  match l with
  | [] => Ok []
  | a :: l' => b ← f a; bs ← mapM f l'; Ok (b :: bs)
  end.

(** ** Strings *)

Definition is_ascii (c : ascii) : bool := (nat_of_ascii c <? 128)%nat.

Fixpoint all_chars (p : ascii -> bool) (s : string) : bool :=
  match s with
  | EmptyString => true
  | String c s' => p c && all_chars p s'
  end.

Definition lower_char (c : ascii) : ascii :=
  let n := nat_of_ascii c in
  if ((65 <=? n) && (n <=? 90))%nat then ascii_of_nat (n + 32) else c.

(** [s.lower()] on ASCII letters; other characters are left alone. *)
Fixpoint lower (s : string) : string :=
  match s with
  | EmptyString => EmptyString
  | String c s' => String (lower_char c) (lower s')
  end.

(** [pat in s]. *)
Fixpoint contains (pat s : string) : bool :=
  String.prefix pat s ||
  match s with
  | EmptyString => false
  | String _ s' => contains pat s'
  end.

(** [s.endswith(suffix)]. *)
Definition endswith (s suffix : string) : bool :=
  let n := String.length s in
  let m := String.length suffix in
  (m <=? n)%nat && String.eqb (substring (n - m) m s) suffix.

(** [s.split(",")]. *)
Fixpoint split_comma (s : string) : list string :=
  match s with
  | EmptyString => [EmptyString]
  | String c s' =>
      match split_comma s' with
      | [] => []
      | x :: xs =>
          if Ascii.eqb c "," then EmptyString :: x :: xs
          else String c x :: xs
      end
  end.

(** ASCII whitespace, as [str.strip()] sees it. *)
Definition is_space (c : ascii) : bool :=
  let n := nat_of_ascii c in
  ((n =? 32) || ((9 <=? n) && (n <=? 13)) || ((28 <=? n) && (n <=? 31)))%nat.

Fixpoint lstrip (s : string) : string :=
  match s with
  | EmptyString => EmptyString
  | String c s' => if is_space c then lstrip s' else s
  end.

Definition reverse (s : string) : string :=
  string_of_list_ascii (List.rev (list_ascii_of_string s)).

Definition strip (s : string) : string :=
  reverse (lstrip (reverse (lstrip s))).

(** [str(n)] for an integer. *)
Definition str_int (n : Z) : string := NilZero.string_of_int (Z.to_int n).

(** [os.path.join(a, b)]. *)
Definition path_join (a b : string) : string :=
  if String.prefix "/" b then b
  else if String.eqb a "" || endswith a "/" then a +:+ b
  else a +:+ "/" +:+ b.

(** ** Frames *)

Inductive dtype := int64 | float64 | object | category | datetime64.

(** A cell: a null ([None], [NaT]; a missing float is the double NaN), an
    integer, a double, a string, or a timestamp in nanoseconds. *)
Inductive cell :=
| Null
| Int (z : Z)
| Flt (x : double)
| Str (s : string)
| Ts (ns : Z).

(** [pd.isna(val)]. *)
Definition isna (c : cell) : bool :=
  match c with
  | Null => true
  | Flt x => is_nan x
  | _ => false
  end.

Record Series := MkSeries {
  s_dtype : dtype;
  values : list cell
}.

(** A frame: its columns, in order, and its rows, each with its index label
    and one cell per column. *)
Record DataFrame := MkFrame {
  columns : list (string * dtype);
  rows : list (Z * list cell)
}.

Definition len (df : DataFrame) : Z := Z.of_nat (length (rows df)).

Definition has_column (df : DataFrame) (column : string) : bool :=
  existsb (fun c => String.eqb (fst c) column) (columns df).

Fixpoint position (column : string) (cols : list (string * dtype)) : nat :=
  match cols with
  | [] => O
  | c :: cols' => if String.eqb (fst c) column then O else Datatypes.S (position column cols')
  end.

Definition dtype_of (df : DataFrame) (column : string) : dtype :=
  match List.find (fun c => String.eqb (fst c) column) (columns df) with
  | Some c => snd c
  | None => object
  end.

Definition cell_at (df : DataFrame) (column : string) (r : Z * list cell) : cell :=
  nth (position column (columns df)) (snd r) Null.

(** [df[column]], for a column of the frame. *)
Definition getitem (df : DataFrame) (column : string) : Series :=
  {| s_dtype := dtype_of df column;
     values := List.map (cell_at df column) (rows df) |}.

(** [df[mask]]: the rows whose mask entry is [True], in their order. *)
Fixpoint select {A} (l : list A) (mask : list bool) : list A :=
  match l, mask with
  | a :: l', b :: mask' => if b then a :: select l' mask' else select l' mask'
  | _, _ => []
  end.

Definition getmask (df : DataFrame) (mask : list bool) : DataFrame :=
  {| columns := columns df; rows := select (rows df) mask |}.

(** [a & b] on two boolean series of one frame. *)
Fixpoint mask_and (a b : list bool) : list bool :=
  match a, b with
  | x :: a', y :: b' => (x && y) :: mask_and a' b'
  | _, _ => []
  end.

(** [df.head(n)]: the first [n] rows, or all but the last [-n]. *)
Definition df_head (n : Z) (df : DataFrame) : DataFrame :=
  {| columns := columns df;
     rows := if 0 <=? n then firstn (Z.to_nat n) (rows df)
             else firstn (Z.to_nat (len df + n)) (rows df) |}.

(** ** Request values *)

Inductive scalar :=
| PNone
| PInt (n : Z)
| PFloat (x : double)
| PStr (s : string).

(** [Any]: a JSON scalar or a JSON array of scalars. *)
Inductive any :=
| One (v : scalar)
| Many (l : list scalar).

Definition type_name (v : scalar) : string :=
  match v with
  | PNone => "NoneType"
  | PInt _ => "int"
  | PFloat _ => "float"
  | PStr _ => "str"
  end.

Record FilterRequest := MkFilterRequest {
  column : string;
  operator : string;     (* eq, gt, lt, gte, lte, in, between *)
  value : any;
  value2 : any;          (* One PNone by default *)
  limit : option Z       (* Some 1000 by default *)
}.

(** ** pandas, on the fragment the module uses

    The behaviour of pandas 1.x/2.x on frames read from Parquet: [int64]
    and [float64] columns, [object] columns of strings, categoricals of
    strings, and [datetime64[ns]] columns. *)

Inductive cmpop := EQ | GT | LT | GE | LE.

Definition symbol (op : cmpop) : string :=
  match op with
  | EQ => "==" | GT => ">" | LT => "<" | GE => ">=" | LE => "<="
  end.

(** Whether a comparison holds, given how the operands compare; unordered
    operands (a NaN) satisfy none. *)
Definition holds (op : cmpop) (c : option comparison) : bool :=
  match op, c with
  | EQ, Some Eq => true
  | GT, Some Gt => true
  | LT, Some Lt => true
  | GE, Some Gt | GE, Some Eq => true
  | LE, Some Lt | LE, Some Eq => true
  | _, _ => false
  end.

Definition in_int64 (n : Z) : bool := (- 2 ^ 63 <=? n) && (n <? 2 ^ 63).
Definition exact_in_double (n : Z) : bool := Z.abs n <=? 2 ^ 53.

Definition dtype_name (dt : dtype) : string :=
  match dt with
  | int64 => "int64"
  | float64 => "float64"
  | object => "object"
  | category => "category"
  | datetime64 => "datetime64[ns]"
  end.

Definition all_false (s : Series) : list bool := List.map (fun _ => false) (values s).

(** [ops.invalid_comparison]: equality with a value of a foreign type is
    false everywhere, an ordering against it raises. *)
Definition invalid_comparison (op : cmpop) (s : Series) (v : scalar) : result (list bool) :=
  match op with
  | EQ => Ok (all_false s)
  | _ => Raise (TypeError ("Invalid comparison between dtype=" +:+
                           dtype_name (s_dtype s) +:+ " and " +:+ type_name v))
  end.

Definition scalar_isna (v : scalar) : bool :=
  match v with
  | PNone => true
  | PFloat x => is_nan x
  | _ => false
  end.

(** One cell of a numeric column against a number: integers compare as
    integers, and as doubles as soon as one side is a double. *)
Definition num_cmp (op : cmpop) (c : cell) (v : scalar) : result bool :=
  match c, v with
  | Null, _ => Ok false
  | Int z, PInt n => Ok (holds op (Some (z ?= n)))
  | Int z, PFloat x => Ok (holds op (SFcompare (lit z) x))
  | Flt y, PInt n => Ok (holds op (SFcompare y (lit n)))
  | Flt y, PFloat x => Ok (holds op (SFcompare y x))
  | _, _ => Beyond                 (* a cell foreign to a numeric column *)
  end.

(** One cell of an [object] column against a scalar, as Python compares
    the two objects ([libops.scalar_compare]). *)
Definition obj_cmp (op : cmpop) (c : cell) (v : scalar) : result bool :=
  match c, v with
  | Null, _ => Ok false
  | Str a, PStr b => Ok (holds op (Some (String.compare a b)))
  | Str a, PInt _ | Str a, PFloat _ =>
      match op with
      | EQ => Ok false
      | _ => Raise (TypeError ("'" +:+ symbol op +:+
                               "' not supported between instances of 'str' and '" +:+
                               type_name v +:+ "'"))
      end
  | _, _ => Beyond                 (* an object column of non-strings *)
  end.

(** [series OP value]. *)
Definition series_cmp (op : cmpop) (s : Series) (v : any) : result (list bool) :=
  match v with
  | Many _ => Beyond               (* comparison with an array-like *)
  | One v =>
      match s_dtype s with
      | category =>
          match op with
          | EQ => Ok (List.map (fun c => match c, v with
                                         | Str a, PStr b => String.eqb a b
                                         | _, _ => false
                                         end) (values s))
          | _ => Raise (TypeError
                   "Unordered Categoricals can only compare equality or not")
          end
      | datetime64 =>
          match v with
          | PInt _ => invalid_comparison op s v
          | PFloat x => if is_nan x then Beyond else invalid_comparison op s v
          | _ => Beyond            (* datetime strings, None *)
          end
      | int64 | float64 =>
          if scalar_isna v then Ok (all_false s)
          else match v with
               | PStr _ => invalid_comparison op s v
               | PInt n => if in_int64 n then mapM (fun c => num_cmp op c v) (values s)
                           else Beyond
               | _ => mapM (fun c => num_cmp op c v) (values s)
               end
      | object =>
          if scalar_isna v then Ok (all_false s)
          else mapM (fun c => obj_cmp op c v) (values s)
      end
  end.

(** Whether a cell equals one element of the list given to [isin]. *)
Definition isin_elem (c : cell) (v : scalar) : result bool :=
  if scalar_isna v then Beyond     (* nulls among the values *)
  else
    match c, v with
    | Null, _ => Ok false
    | Int z, PInt n => if in_int64 n then Ok (z =? n) else Beyond
    | Int z, PFloat x =>
        if exact_in_double z then Ok (holds EQ (SFcompare (lit z) x)) else Beyond
    | Flt y, PInt n =>
        if exact_in_double n then Ok (holds EQ (SFcompare y (lit n))) else Beyond
    | Flt y, PFloat x => Ok (holds EQ (SFcompare y x))
    | Str a, PStr b => Ok (String.eqb a b)
    | Ts _, _ => Beyond
    | _, _ => Ok false
    end.

Definition isin_cell (l : list scalar) (c : cell) : result bool :=
  bs ← mapM (isin_elem c) l; Ok (existsb id bs).

(** [series.isin(value)]. *)
Definition series_isin (s : Series) (v : any) : result (list bool) :=
  match v with
  | One v =>
      Raise (TypeError
        ("only list-like objects are allowed to be passed to isin(), you passed a `"
         +:+ type_name v +:+ "`"))
  | Many l => mapM (isin_cell l) (values s)
  end.

(** One element of [series.astype(str)]. *)
Definition astype_str (dt : dtype) (c : cell) : result string :=
  match c with
  | Int z => Ok (str_int z)
  | Str a => Ok a
  | Null =>
      match dt with
      | object => Ok "None"
      | category => Ok "nan"
      | datetime64 => Ok "NaT"
      | _ => Beyond
      end
  | _ => Beyond                    (* the text of a double or a timestamp *)
  end.

(** [str(value)]. *)
Definition py_str (v : any) : result string :=
  match v with
  | One (PStr a) => Ok a
  | One (PInt n) => Ok (str_int n)
  | One PNone => Ok "None"
  | _ => Beyond
  end.

(** Characters that stand for themselves in a regular expression. *)
Definition plain (c : ascii) : bool :=
  is_ascii c &&
  negb (existsb (Ascii.eqb c) (list_ascii_of_string ".^$*+?{}[]\|()")).

(** [re.compile(pat, re.IGNORECASE).search(s) is not None], for a pattern
    of plain characters and an ASCII subject. *)
Definition re_search_ignorecase (pat s : string) : result bool :=
  if all_chars plain pat && all_chars is_ascii s
  then Ok (contains (lower pat) (lower s))
  else Beyond.

(** [series.str.contains(pat, case=False, na=False)]. *)
Definition str_contains (pat : string) (s : Series) : result (list bool) :=
  mapM (fun c => match c with
                 | Str a => re_search_ignorecase pat a
                 | _ => Ok false
                 end) (values s).

(** ** JSON values of a response *)

Inductive json :=
| JNull
| JInt (z : Z)
| JFloat (x : double)
| JStr (s : string)
| JIso (ns : Z)        (* val.isoformat() *)
| JStrftime (ns : Z).  (* strftime('%Y-%m-%d %H:%M:%S') *)

Definition record := list (string * json).

(** ** The host and the process *)

(** What the calls that leave the module return on a host: the file
    system, and pandas' datetime conversion.  [read_parquet] returns the
    frame or the exception it raises; [to_datetime] is [None] where it
    raises. *)
Record host := MkHost {
  module_file : string;                         (* __file__ *)
  isdir : string -> bool;                       (* os.path.isdir *)
  path_exists : string -> bool;                 (* os.path.exists *)
  glob_glob : string -> list string;            (* glob.glob *)
  read_parquet : string -> DataFrame + exn;     (* pd.read_parquet *)
  walk : string -> list (string * list string); (* os.walk: root, files *)
  to_datetime : Series -> option Series   (* pd.to_datetime(s, errors='ignore') *)
}.

(** A call made to the file system. *)
Inductive io :=
| IsDir (path : string)
| Exists (path : string)
| Glob (pattern : string)
| ReadParquet (path : string)
| Walk (top : string).

(** The state of the serving process: the module global [DATA_CACHE] and
    the file-system calls made so far, oldest first. *)
Record process := MkProcess {
  DATA_CACHE : gmap string DataFrame;
  trace : list io
}.

Definition reads (p : process) : list string :=
  omap (fun e => match e with ReadParquet path => Some path | _ => None end)
       (trace p).

(** [os.path.dirname(p)]. *)
Fixpoint rstrip_slash_rev (r : string) : string :=
  match r with
  | String "/" r' => rstrip_slash_rev r'
  | _ => r
  end.

Fixpoint from_slash (r : string) : string :=
  match r with
  | EmptyString => EmptyString
  | String "/" _ => r
  | String _ r' => from_slash r'
  end.

Definition dirname (p : string) : string :=
  let head_rev := from_slash (reverse p) in
  if all_chars (Ascii.eqb "/") head_rev then reverse head_rev
  else reverse (rstrip_slash_rev head_rev).

(** Line 17. *)
Definition PARQUET_PATH (h : host) : string :=
  path_join (path_join (path_join (dirname (dirname (module_file h))) "data")
                       "processed") "taxi_clean.parquet".

#[global] Instance double_eq_dec : EqDecision double.
Proof. solve_decision. Defined.
#[global] Instance cell_eq_dec : EqDecision cell.
Proof. solve_decision. Defined.

(** [series.nunique()]: the number of distinct non-null values. *)
Definition nunique (s : Series) : Z :=
  Z.of_nat (length (remove_dups (List.filter (fun c => negb (isna c)) (values s)))).

(** [series.astype('category')]. *)
Definition astype_category (s : Series) : Series :=
  {| s_dtype := category; values := values s |}.

Fixpoint set_cells (pos : nat) (rs : list (Z * list cell)) (vs : list cell)
  : list (Z * list cell) :=
  match rs, vs with
  | r :: rs', v :: vs' => (fst r, <[pos := v]> (snd r)) :: set_cells pos rs' vs'
  | _, _ => rs
  end.

(** [df[col] = series], for a column of the frame. *)
Definition setitem (df : DataFrame) (col : string) (s : Series) : DataFrame :=
  {| columns := List.map (fun c => if String.eqb (fst c) col
                                   then (col, s_dtype s) else c) (columns df);
     rows := set_cells (position col (columns df)) (rows df) (values s) |}.

(** The dtype pass of both loaders' tails, on one column. *)
Definition datetime_named (col : string) : bool := contains "datetime" (lower col).

(** ** Lines 1-422 *)

Module Main.

(** Lines 93-102: an [object] column whose name mentions datetime is
    handed to [pd.to_datetime]; another one becomes a categorical when
    fewer than half of its values are distinct.  An exception leaves the
    column as it is. *)
Definition optimize_column (h : host) (df : DataFrame) (col : string) : DataFrame :=
  match s_dtype (getitem df col) with
  | object =>
      if datetime_named col then
        match to_datetime h (getitem df col) with
        | Some s => setitem df col s
        | None => df
        end
      else if 2 * nunique (getitem df col) <? len df then
        setitem df col (astype_category (getitem df col))
      else df
  | _ => df
  end.

Definition optimize (h : host) (df : DataFrame) : DataFrame :=
  fold_left (optimize_column h) (List.map fst (columns df)) df.

Definition possible_paths (h : host) : list string :=
  [ PARQUET_PATH h;
    path_join (path_join (dirname (dirname (module_file h))) "data") "processed";
    path_join (path_join (path_join (dirname (module_file h)) "..") "data") "processed";
    "./data/processed";
    "../data/processed" ].

(** Lines 57-72: the candidates in order; the first that reads wins, one
    that raises is skipped.  Returns the frame and the calls made. *)
Fixpoint try_paths (h : host) (paths : list string) : option DataFrame * list io :=
  match paths with
  | [] => (None, [])
  | path :: rest =>
      let continue_ (done : list io) :=
        let '(df, tr) := try_paths h rest in (df, done ++ tr) in
      if isdir h path then
        let pattern := path_join path "*.parquet" in
        match glob_glob h pattern with
        | [] => continue_ [IsDir path; Glob pattern]
        | _ =>
            match read_parquet h path with
            | inl df => (Some df, [IsDir path; Glob pattern; ReadParquet path])
            | inr _ => continue_ [IsDir path; Glob pattern; ReadParquet path]
            end
        end
      else if path_exists h path && endswith path ".parquet" then
        match read_parquet h path with
        | inl df => (Some df, [IsDir path; Exists path; ReadParquet path])
        | inr _ => continue_ [IsDir path; Exists path; ReadParquet path]
        end
      else continue_ [IsDir path; Exists path]
  end.

(** Lines 77-85: the files of one directory of the walk. *)
Fixpoint try_files (h : host) (root : string) (files : list string)
  : option DataFrame * list io :=
  match files with
  | [] => (None, [])
  | file :: rest =>
      if endswith file ".parquet" then
        let file_path := path_join root file in
        match read_parquet h file_path with
        | inl df => (Some df, [ReadParquet file_path])
        | inr _ => let '(df, tr) := try_files h root rest in
                   (df, ReadParquet file_path :: tr)
        end
      else try_files h root rest
  end.

(** Lines 76-87. *)
Fixpoint try_walk (h : host) (dirs : list (string * list string))
  : option DataFrame * list io :=
  match dirs with
  | [] => (None, [])
  | (root, files) :: rest =>
      match try_files h root files with
      | (Some df, tr) => (Some df, tr)
      | (None, tr) => let '(df, tr') := try_walk h rest in (df, tr ++ tr')
      end
  end.

(** Lines 46-90: the search for a readable Parquet source. *)
Definition find_data (h : host) : option DataFrame * list io :=
  match try_paths h (possible_paths h) with
  | (Some df, tr) => (Some df, tr)
  | (None, tr) =>
      let top := dirname (dirname (module_file h)) in
      let '(df, tr') := try_walk h (walk h top) in
      (df, tr ++ Walk top :: tr')
  end.

(** Lines 39-112. *)
Definition load_parquet_data (h : host) (p : process) : result DataFrame * process :=
  match DATA_CACHE p !! "main_df" with
  | Some df => (Ok df, p)
  | None =>
      match find_data h with
      | (Some df, tr) =>
          let df := optimize h df in
          (Ok df, {| DATA_CACHE := <["main_df" := df]> (DATA_CACHE p);
                     trace := trace p ++ tr |})
      | (None, tr) =>
          (Raise (HTTPException 500
                    (Fmt "Erro ao carregar dados: "
                         (FileNotFoundError "Nenhum arquivo Parquet válido encontrado"))),
           {| DATA_CACHE := DATA_CACHE p; trace := trace p ++ tr |})
      end
  end.

(** [if filter_req.limit]: [None] and [0] are false. *)
Definition truthy (limit : option Z) : bool :=
  match limit with
  | Some n => negb (n =? 0)
  | None => false
  end.

(** Lines 114-154. *)
Definition apply_filter (df : DataFrame) (filter_req : FilterRequest) : result DataFrame :=
  try_except
    (let column := column filter_req in
     let operator := lower (operator filter_req) in
     let value := value filter_req in
     let value2 := value2 filter_req in
     if negb (has_column df column) then
       Raise (ValueError ("Coluna '" +:+ column +:+ "' não existe"))
     else
       (* Converte valores para o tipo correto da coluna *)
       let col_dtype := s_dtype (getitem df column) in
       filtered_df ←
         (if String.eqb operator "eq" then
            m ← series_cmp EQ (getitem df column) value; Ok (getmask df m)
          else if String.eqb operator "gt" then
            m ← series_cmp GT (getitem df column) value; Ok (getmask df m)
          else if String.eqb operator "lt" then
            m ← series_cmp LT (getitem df column) value; Ok (getmask df m)
          else if String.eqb operator "gte" then
            m ← series_cmp GE (getitem df column) value; Ok (getmask df m)
          else if String.eqb operator "lte" then
            m ← series_cmp LE (getitem df column) value; Ok (getmask df m)
          else if String.eqb operator "in" then
            value ← match value with
                    | One (PStr v) =>
                        if all_chars is_ascii v
                        then Ok (Many (List.map (fun v => PStr (strip v))
                                                (split_comma v)))
                        else Beyond   (* stripping of non-ASCII blanks *)
                    | _ => Ok value
                    end;
            m ← series_isin (getitem df column) value; Ok (getmask df m)
          else if String.eqb operator "between" then
            match value2 with
            | One PNone => Raise (ValueError "Operação 'between' requer value2")
            | _ =>
                m1 ← series_cmp GE (getitem df column) value;
                m2 ← series_cmp LE (getitem df column) value2;
                Ok (getmask df (mask_and m1 m2))
            end
          else if String.eqb operator "contains" then
            strs ← mapM (astype_str col_dtype) (values (getitem df column));
            pat ← py_str value;
            m ← mapM (re_search_ignorecase pat) strs;
            Ok (getmask df m)
          else if all_chars is_ascii operator then
            Raise (ValueError ("Operador '" +:+ operator +:+ "' não suportado"))
          else Beyond);                 (* lower-casing of non-ASCII text *)
       Ok (if truthy (limit filter_req)
           then df_head (default 0 (limit filter_req)) filtered_df
           else filtered_df))
    (fun e => HTTPException 400 (Fmt "Erro no filtro: " e)).

(** Lines 276-287: one value of a row on its way to JSON.  ([iterrows]
    hands a row over as one Series of the row's common dtype; that
    conversion is not modelled, each cell keeps its column's type.) *)
Definition jsonable (c : cell) : json :=
  if isna c then JNull
  else match c with
       | Int z => JInt z
       | Flt x => JFloat x
       | Ts ns => JIso ns
       | Str a => JStr a
       | Null => JNull
       end.

Definition row_dict (df : DataFrame) (r : Z * list cell) : record :=
  List.map (fun c => (fst c, jsonable (cell_at df (fst c) r))) (columns df).

(** The body of the [/filter] response. *)
Record FilterResponse := MkFilterResponse {
  data : list record;
  filtered_count : Z;
  total_records : Z;
  filter_applied : string * string * any * any
}.

Section Handlers.

(** The module global [load_parquet_data], looked up when a handler
    runs. *)
Variable load_parquet_data : host -> process -> result DataFrame * process.

(** Lines 266-303: [POST /filter]. *)
Definition filter_data (filter_req : FilterRequest) (h : host) (p : process)
  : result FilterResponse * process :=
  let '(loaded, p') := load_parquet_data h p in
  (try_except
     (df ← loaded;
      filtered_df ← apply_filter df filter_req;
      let result := List.map (row_dict filtered_df) (rows filtered_df) in
      Ok {| data := result;
            filtered_count := len filtered_df;
            total_records := len df;
            filter_applied := (column filter_req, operator filter_req,
                               value filter_req, value2 filter_req) |})
     (fun e => HTTPException 400 (Fmt "Erro no filtro: " e)),
   p').

End Handlers.

(** *** [GET /preview] and [GET /unique/{column}] *)

Module Preview.
(** The body of the [/preview] response. *)
Record Response := MkResponse {
  data : list record;
  total_records : Z;
  preview_count : Z;
  columns : list string
}.
End Preview.

Module Unique.
(** The body of the [/unique/{column}] response; [unique_values] is the
    dict of [to_dict()], in its insertion order. *)
Record Response := MkResponse {
  column : string;
  unique_values : list (cell * Z);
  total_unique : Z;
  showing : Z
}.
End Unique.

Section Views.

(** The module global [load_parquet_data], looked up when a handler runs. *)
Variable load_parquet_data : host -> process -> result DataFrame * process.

(** [series.value_counts()]: the distinct non-null values with their
    numbers of occurrences, most frequent first. *)
Variable value_counts : Series -> list (cell * Z).

(** Lines 232-264: [GET /preview].  [limit] has passed the validation
    [ge=1, le=100] of its [Query]. *)
Definition preview (limit : Z) (h : host) (p : process)
  : result Preview.Response * process :=
  let '(loaded, p') := load_parquet_data h p in
  (try_except
     (df ← loaded;
      let preview_df := df_head limit df in
      let result := List.map (row_dict preview_df) (rows preview_df) in
      Ok {| Preview.data := result;
            Preview.total_records := len df;
            Preview.preview_count := Z.of_nat (length result);
            Preview.columns := List.map fst (columns df) |})
     (fun e => HTTPException 500 (Fmt "Erro no preview: " e)),
   p').

(** Lines 398-417: [GET /unique/{column}].  [limit] has passed the
    validation [ge=1, le=1000] of its [Query]. *)
Definition get_unique_values (column : string) (limit : Z) (h : host) (p : process)
  : result Unique.Response * process :=
  let '(loaded, p') := load_parquet_data h p in
  (try_except
     (df ← loaded;
      if negb (has_column df column) then
        Raise (HTTPException 404
                 (Text ("Coluna '" +:+ column +:+ "' não encontrada")))
      else
        let unique_values :=
          if 0 <=? limit
          then firstn (Z.to_nat limit) (value_counts (getitem df column))
          else firstn (length (value_counts (getitem df column))
                       - Z.to_nat (- limit))%nat
                      (value_counts (getitem df column)) in
        Ok {| Unique.column := column;
              Unique.unique_values := unique_values;
              Unique.total_unique := nunique (getitem df column);
              Unique.showing := Z.of_nat (length unique_values) |})
     (fun e => HTTPException 500 (Fmt "Erro ao obter valores únicos: " e)),
   p').

End Views.

End Main.

(** ** Lines 423-694

    The rest of the file holds a second set of definitions under the same
    names.  Executed after the first, each [def] rebinds its name in the
    module's globals, and each decorator adds its route to [app]. *)

Module Tail.

(** Lines 444-451. *)
Definition convert_column (h : host) (df : DataFrame) (col : string) : DataFrame :=
  match s_dtype (getitem df col) with
  | object =>
      if datetime_named col then
        match to_datetime h (getitem df col) with
        | Some s => setitem df col s
        | None => df
        end
      else df
  | _ => df
  end.

(** Lines 427-457. *)
Definition load_parquet_data (h : host) (p : process) : result DataFrame * process :=
  let wrap e := HTTPException 500 (Fmt "Erro ao carregar dados: " e) in
  let finish (df : DataFrame) :=
    Ok (fold_left (convert_column h) (List.map fst (columns df)) df) in
  let path := PARQUET_PATH h in
  if isdir h path then
    (match read_parquet h path with
     | inl df => finish df
     | inr e => Raise (wrap e)
     end,
     {| DATA_CACHE := DATA_CACHE p;
        trace := trace p ++ [IsDir path; ReadParquet path] |})
  else
    let pattern := path_join (dirname path) "*.parquet" in
    match glob_glob h pattern with
    | first :: _ =>
        (match read_parquet h first with
         | inl df => finish df
         | inr e => Raise (wrap e)
         end,
         {| DATA_CACHE := DATA_CACHE p;
            trace := trace p ++ [IsDir path; Glob pattern; ReadParquet first] |})
    | [] =>
        (Raise (wrap (FileNotFoundError
                        ("Nenhum arquivo Parquet encontrado em " +:+ path))),
         {| DATA_CACHE := DATA_CACHE p;
            trace := trace p ++ [IsDir path; Glob pattern] |})
    end.

(** *** [float(s)] and [int(x)] *)

Definition is_digit (c : ascii) : bool :=
  let n := nat_of_ascii c in ((48 <=? n) && (n <=? 57))%nat.

Fixpoint digits_value (s : string) (acc : Z) : Z :=
  match s with
  | EmptyString => acc
  | String c s' => digits_value s' (10 * acc + (Z.of_nat (nat_of_ascii c) - 48))
  end.

(** The part of [s] before the first ".", and the part after it. *)
Fixpoint split_point (s : string) : string * option string :=
  match s with
  | EmptyString => (EmptyString, None)
  | String c s' =>
      if Ascii.eqb c "." then (EmptyString, Some s')
      else let '(a, b) := split_point s' in (String c a, b)
  end.

(** A sign, digits, and possibly a point and more digits: at most fifteen
    digits in all, so that numerator and power of ten are doubles and
    their quotient is the nearest double to the decimal. *)
Definition decimal (s : string) : option double :=
  let '(neg, body) :=
    match s with
    | String "-" s' => (true, s')
    | String "+" s' => (false, s')
    | _ => (false, s)
    end in
  let '(int_part, frac) := split_point body in
  let frac_part := default EmptyString frac in
  if all_chars is_digit int_part && all_chars is_digit frac_part &&
     negb (String.eqb int_part "") &&
     negb (bool_decide (frac = Some EmptyString)) &&
     (String.length int_part + String.length frac_part <=? 15)%nat
  then
    let m := digits_value (int_part +:+ frac_part) 0 in
    let x := match frac with
             | None => lit m
             | Some _ => ddiv (lit m) (lit (10 ^ Z.of_nat (String.length frac_part)))
             end in
    Some (if neg then SFopp x else x)
  else None.

(** Characters that no argument accepted by [float] contains, among the
    printable ASCII ones whose [repr] is themselves. *)
Definition never_in_float (c : ascii) : bool :=
  let n := nat_of_ascii c in
  ((33 <=? n) && (n <=? 126))%nat &&
  negb (existsb (Ascii.eqb c)
          (list_ascii_of_string "0123456789+-._eEiInNfFtTyYaA'\")).

Definition repr_safe (c : ascii) : bool :=
  let n := nat_of_ascii c in
  ((32 <=? n) && (n <=? 126))%nat && negb (Ascii.eqb c "'") && negb (Ascii.eqb c "\").

(** [float(s)]: the decimals above convert; the empty string and a string
    with a character that cannot occur in a float literal raise
    [ValueError]; the other forms ([1e5], [inf], blanks, ...) are outside
    the fragment. *)
Definition py_float (s : string) : result double :=
  match decimal s with
  | Some x => Ok x
  | None =>
      if all_chars repr_safe s &&
         (String.eqb s "" || negb (all_chars (fun c => negb (never_in_float c)) s))
      then Raise (ValueError ("could not convert string to float: '" +:+ s +:+ "'"))
      else Beyond
  end.

(** [int(x)]: truncation toward zero of a finite double. *)
Definition py_int (x : double) : result Z :=
  match x with
  | S754_zero _ => Ok 0
  | S754_finite s m e =>
      let mag := if 0 <=? e then Zpos m * 2 ^ e else Zpos m / 2 ^ (- e) in
      Ok (if s then - mag else mag)
  | _ => Beyond
  end.

Definition is_numeric (dt : dtype) : bool :=
  match dt with int64 | float64 => true | _ => false end.

(** Lines 587-593: the coercion of [eq]. *)
Definition coerce_eq (dt : dtype) (value : string) : result scalar :=
  if is_numeric dt then
    match py_float value with
    | Raise (ValueError _) =>
        Raise (HTTPException 400
                 (Text ("Valor '" +:+ value +:+ "' inválido para coluna numérica")))
    | Raise e => Raise e
    | Beyond => Beyond
    | Ok x =>
        match dt with
        | int64 => n ← py_int x; Ok (PInt n)
        | _ => Ok (PFloat x)
        end
    end
  else Ok (PStr value).

(** Lines 613-618: the coercion of [in]. *)
Definition coerce_in (dt : dtype) (value : string) : result (list scalar) :=
  if all_chars is_ascii value then
    let values := List.map strip (split_comma value) in
    if is_numeric dt then
      xs ← mapM py_float values;
      match dt with
      | int64 => ns ← mapM py_int xs; Ok (List.map PInt ns)
      | _ => Ok (List.map PFloat xs)
      end
    else Ok (List.map PStr values)
  else Beyond.                          (* stripping of non-ASCII blanks *)

(** Lines 634-636 and 642: a cell of the result; the datetime columns
    are rendered with [strftime]. *)
Definition to_dict_value (c : cell) : json :=
  match c with
  | Null => JNull
  | Int z => JInt z
  | Flt x => JFloat x
  | Str a => JStr a
  | Ts ns => JStrftime ns
  end.

Definition to_dict (df : DataFrame) : list record :=
  List.map (fun r => List.map (fun c => (fst c, to_dict_value (cell_at df (fst c) r)))
                              (columns df)) (rows df).

(** The body of the response.  [filter_applied] is the text
    [f"{column} {operator} {value}"], kept as its three parts. *)
Record FilterResponse := MkFilterResponse {
  filter_applied : string * string * any;
  total_matches : Z;
  returned_count : Z;
  data : list record
}.

Section Handlers.

Variable load_parquet_data : host -> process -> result DataFrame * process.

(** Lines 569-648: [GET /filter].  [limit] has passed the validation
    [ge=1, le=10000] of its [Query]. *)
Definition filter_data (column operator value : string) (limit : Z)
  (h : host) (p : process) : result FilterResponse * process :=
  let '(loaded, p') := load_parquet_data h p in
  (try_except
     (df ← loaded;
      if negb (has_column df column) then
        Raise (HTTPException 400 (Text ("Coluna '" +:+ column +:+ "' não encontrada")))
      else
        let col := getitem df column in
        let compare op :=
          x ← py_float value;
          m ← series_cmp op col (One (PFloat x));
          Ok (One (PFloat x), getmask df m) in
        '(value', df_filtered) ←
          (if String.eqb operator "eq" then
             v ← coerce_eq (s_dtype col) value;
             m ← series_cmp EQ col (One v);
             Ok (One v, getmask df m)
           else if String.eqb operator "gt" then compare GT
           else if String.eqb operator "lt" then compare LT
           else if String.eqb operator "gte" then compare GE
           else if String.eqb operator "lte" then compare LE
           else if String.eqb operator "in" then
             values ← coerce_in (s_dtype col) value;
             m ← series_isin col (Many values);
             Ok (One (PStr value), getmask df m)
           else if String.eqb operator "contains" then
             match s_dtype col with
             | object =>
                 m ← str_contains value col;
                 Ok (One (PStr value), getmask df m)
             | _ => Raise (HTTPException 400
                      (Text "Operador 'contains' só funciona com colunas de texto"))
             end
           else Raise (HTTPException 400
                         (Text ("Operador '" +:+ operator +:+ "' não suportado"))));
        let df_result := df_head limit df_filtered in
        Ok {| filter_applied := (column, operator, value');
              total_matches := len df_filtered;
              returned_count := len df_result;
              data := to_dict df_result |})
     (fun e => match e with
               | HTTPException _ _ => e
               | _ => HTTPException 500 (Fmt "Erro ao filtrar dados: " e)
               end),
   p').

End Handlers.

(** *** [POST /filter_advanced] *)

(** [float(value)] for a value of a request body. *)
Definition float_any (v : any) : result double :=
  match v with
  | One (PStr a) => py_float a
  | One (PInt n) => if Z.abs n <? 2 ^ 1024 then Ok (lit n) else Beyond
  | One (PFloat x) => Ok x
  | One PNone =>
      Raise (TypeError
        "float() argument must be a string or a real number, not 'NoneType'")
  | Many _ =>
      Raise (TypeError
        "float() argument must be a string or a real number, not 'list'")
  end.

(** Lines 666-669: the coercion of [eq]; here nothing catches its errors. *)
Definition coerce_any (dt : dtype) (value : any) : result any :=
  if is_numeric dt then
    x ← float_any value;
    match dt with
    | int64 => n ← py_int x; Ok (One (PInt n))
    | _ => Ok (One (PFloat x))
    end
  else Ok value.

(** Lines 656-671: one turn of the loop over the filters.  Only [eq] has a
    branch; a filter with another operator leaves the frame as it is. *)
Definition apply_one (df : DataFrame) (filter_req : FilterRequest) : result DataFrame :=
  let column := column filter_req in
  if negb (has_column df column) then
    Raise (HTTPException 400 (Text ("Coluna '" +:+ column +:+ "' não encontrada")))
  else if String.eqb (operator filter_req) "eq" then
    value ← coerce_any (s_dtype (getitem df column)) (value filter_req);
    m ← series_cmp EQ (getitem df column) value;
    Ok (getmask df m)
  else Ok df.

Fixpoint apply_all (df : DataFrame) (filters : list FilterRequest) : result DataFrame :=
  match filters with
  | [] => Ok df
  | filter_req :: rest => df' ← apply_one df filter_req; apply_all df' rest
  end.

(** [df.head(limit)] where [limit] may be [None]: the slice [[:None]] is
    the whole frame. *)
Definition head_opt (limit : option Z) (df : DataFrame) : DataFrame :=
  match limit with
  | Some n => df_head n df
  | None => df
  end.

Module Advanced.
(** The body of the [/filter_advanced] response. *)
Record Response := MkResponse {
  filters_applied : Z;
  total_matches : Z;
  returned_count : Z;
  data : list record
}.
End Advanced.

Section MoreHandlers.

Variable load_parquet_data : host -> process -> result DataFrame * process.

(** Lines 650-689: [POST /filter_advanced]. *)
Definition filter_advanced (filters : list FilterRequest) (h : host) (p : process)
  : result Advanced.Response * process :=
  let '(loaded, p') := load_parquet_data h p in
  (try_except
     (df ← loaded;
      df ← apply_all df filters;
      let limit := match filters with
                   | first :: _ => limit first
                   | [] => Some 1000
                   end in
      let df_result := head_opt limit df in
      Ok {| Advanced.filters_applied := Z.of_nat (length filters);
            Advanced.total_matches := len df;
            Advanced.returned_count := len df_result;
            Advanced.data := to_dict df_result |})
     (fun e => HTTPException 500 (Fmt "Erro ao aplicar filtros: " e)),
   p').

End MoreHandlers.

End Tail.

(** ** The match sets of the filters *)

(** Numbers: the integers and the doubles.  Two integers are ordered as
    integers and two doubles as IEEE 754 orders them; an integer met with
    a double is first taken to the nearest double, as pandas does when it
    compares an [int64] column with a float or a [float64] column with an
    integer. *)
Inductive number :=
| NInt (z : Z)
| NDbl (x : double).

Definition number_of_cell (c : cell) : option number :=
  match c with
  | Int z => Some (NInt z)
  | Flt x => Some (NDbl x)
  | _ => None
  end.

Definition number_of_scalar (v : scalar) : option number :=
  match v with
  | PInt n => Some (NInt n)
  | PFloat x => Some (NDbl x)
  | _ => None
  end.

Definition to_double (n : number) : double :=
  match n with
  | NInt z => lit z
  | NDbl x => x
  end.

Definition number_le (x y : number) : bool :=
  match x, y with
  | NInt a, NInt b => a <=? b
  | _, _ => SFleb (to_double x) (to_double y)
  end.

(** [lo <= c <= hi] in that order, both ends included; a null is in no
    interval. *)
Definition inclusive (lo hi : scalar) (c : cell) : bool :=
  match number_of_scalar lo, number_of_cell c, number_of_scalar hi with
  | Some l, Some x, Some h => number_le l x && number_le x h
  | _, _, _ => false
  end.

(** A numeric column of a frame: [int64] or [float64], holding numbers and
    nulls only. *)
Definition numeric_cell (c : cell) : Prop :=
  match c with Int _ | Flt _ | Null => True | _ => False end.

Definition numeric_column (df : DataFrame) (column : string) : Prop :=
  has_column df column = true /\
  (dtype_of df column = int64 \/ dtype_of df column = float64) /\
  Forall (fun r => numeric_cell (cell_at df column r)) (rows df).

(** A text column of a frame: [object], holding strings and nulls only. *)
Definition text_cell (c : cell) : Prop :=
  match c with Str _ | Null => True | _ => False end.

Definition text_column (df : DataFrame) (column : string) : Prop :=
  has_column df column = true /\
  dtype_of df column = object /\
  Forall (fun r => text_cell (cell_at df column r)) (rows df).

(** [lo <= c <= hi] on texts, in the order of their characters. *)
Definition inclusive_text (lo hi : string) (c : cell) : bool :=
  match c with
  | Str a => String.leb lo a && String.leb a hi
  | _ => false
  end.

(** The answer of [obj_cmp] on one cell, [false] where it has none. *)
Definition text_test (op : cmpop) (v : string) (c : cell) : bool :=
  match obj_cmp op c (PStr v) with Ok b => b | _ => false end.

(** The answer of [num_cmp] on one cell, [false] where it has none. *)
Definition num_test (op : cmpop) (v : scalar) (c : cell) : bool :=
  match num_cmp op c v with Ok b => b | _ => false end.

(** A bound that pandas compares with a numeric column as a number. *)
Definition numeric_bound (v : scalar) : Prop :=
  match v with
  | PInt n => in_int64 n = true
  | PFloat _ => True
  | _ => False
  end.

(** What [series_cmp] computes for one cell: its answer on the series made
    of that cell alone. *)
Definition cell_matches (op : cmpop) (dt : dtype) (v : any) (c : cell) : bool :=
  match series_cmp op {| s_dtype := dt; values := [c] |} v with
  | Ok [b] => b
  | _ => false
  end.

(** Successive calls of a loader in one process, each on the host as it is
    at that time: the outcome of each call and the process after it. *)
Fixpoint calls (load : host -> process -> result DataFrame * process)
  (hosts : list host) (p : process) : list (result DataFrame * process) :=
  match hosts with
  | [] => []
  | h :: hosts' => load h p :: calls load hosts' (snd (load h p))
  end.

(** ** Example data *)

Module Sample.

Definition half (n : Z) : double := ddiv (lit n) (lit 2).

(** Four trips; the second has no store-and-forward flag. *)
Definition trips : DataFrame :=
  {| columns := [("passenger_count", int64); ("fare_amount", float64);
                 ("store_and_fwd_flag", object)];
     rows := [ (0, [Int 1; Flt (lit 10); Str "N"]);
               (1, [Int 2; Flt (lit 20); Null]);
               (2, [Int 2; Flt (half 25); Str "Y"]);
               (3, [Int 3; Flt (lit 30); Str "N"]) ] |}.

Definition request (column operator : string) (value : any) (limit : option Z)
  : FilterRequest :=
  {| column := column; operator := operator; value := value;
     value2 := One PNone; limit := limit |}.

Definition uncapped (filter_req : FilterRequest) : FilterRequest :=
  {| column := column filter_req; operator := operator filter_req;
     value := value filter_req; value2 := value2 filter_req; limit := None |}.

Definition between (column : string) (value value2 : any) : FilterRequest :=
  {| column := column; operator := "between"; value := value;
     value2 := value2; limit := None |}.

(** A host on which Spark has written the data set as the directory
    [taxi_clean.parquet]. *)
Definition data_dir : string := "/app/data/processed/taxi_clean.parquet".

Definition app : host :=
  {| module_file := "/app/api/main.py";
     isdir := fun path => String.eqb path data_dir;
     path_exists := fun path => String.eqb path data_dir;
     glob_glob := fun pattern =>
       if String.eqb pattern (path_join data_dir "*.parquet")
       then [path_join data_dir "part-00000.snappy.parquet"] else [];
     read_parquet := fun path =>
       if String.eqb path data_dir then inl trips
       else inr (FileNotFoundError path);
     walk := fun _ => [];
     to_datetime := fun s => Some s |}.

Definition fresh : process := {| DATA_CACHE := ∅; trace := [] |}.

(** A host with no Parquet file anywhere. *)
Definition bare : host :=
  {| module_file := "/app/api/main.py";
     isdir := fun _ => false;
     path_exists := fun _ => false;
     glob_glob := fun _ => [];
     read_parquet := fun path => inr (FileNotFoundError path);
     walk := fun _ => [("/app", ["main.py"; "README.md"])];
     to_datetime := fun s => Some s |}.

(** A loader that answers as the host is down: HTTP 503. *)
Definition down (h : host) (p : process) : result DataFrame * process :=
  (Raise (HTTPException 503 (Text "down")), p).

(** No value is counted. *)
Definition no_counts (s : Series) : list (cell * Z) := [].

(** [request] with its operator replaced. *)
Definition with_operator (filter_req : FilterRequest) (op : string) : FilterRequest :=
  {| column := column filter_req; operator := op;
     value := value filter_req; value2 := value2 filter_req;
     limit := limit filter_req |}.

(** The operators that [apply_filter] knows. *)
Definition operators : list string :=
  ["eq"; "gt"; "lt"; "gte"; "lte"; "in"; "between"; "contains"].

(** The rows of [trips] with the given index labels. *)
Definition pick (labels : list Z) : DataFrame :=
  {| columns := columns trips;
     rows := List.filter (fun r => existsb (Z.eqb (fst r)) labels) (rows trips) |}.

(** Five trips whose store-and-forward flag takes two values: fewer than
    half as many as there are rows. *)
Definition flagged : DataFrame :=
  {| columns := [("passenger_count", int64); ("store_and_fwd_flag", object)];
     rows := [ (0, [Int 1; Str "N"]);
               (1, [Int 2; Str "N"]);
               (2, [Int 2; Str "Y"]);
               (3, [Int 3; Str "N"]);
               (4, [Int 1; Str "N"]) ] |}.

(** The host [app] with [flagged] as its data set. *)
Definition flagged_app : host :=
  {| module_file := module_file app;
     isdir := isdir app;
     path_exists := path_exists app;
     glob_glob := glob_glob app;
     read_parquet := fun path =>
       if String.eqb path data_dir then inl flagged
       else inr (FileNotFoundError path);
     walk := walk app;
     to_datetime := to_datetime app |}.

(** [between "A" "Z"] on the flag. *)
Definition flag_between : FilterRequest :=
  between "store_and_fwd_flag" (One (PStr "A")) (One (PStr "Z")).

(** [POST /filter] and [GET /filter] on this host, in a fresh process. *)
Definition post (filter_req : FilterRequest) : result Main.FilterResponse :=
  fst (Main.filter_data Main.load_parquet_data filter_req app fresh).

Definition get (column operator value : string) (limit : Z)
  : result Tail.FilterResponse :=
  fst (Tail.filter_data Tail.load_parquet_data column operator value limit
         app fresh).

(** Two calls of a loader, one after the other. *)
Definition twice (load : host -> process -> result DataFrame * process)
  : result DataFrame * result DataFrame * process :=
  let '(r1, p1) := load app fresh in
  let '(r2, p2) := load app p1 in
  (r1, r2, p2).

End Sample.

End Api.


(* ===================================================================== *)
(** * Properties of the cleaning pipeline *)
(* ===================================================================== *)

Module SparkFacts.

Import Spark.

Lemma and3_true (a b : bcol) :
  a &&& b = Some true <-> a = Some true /\ b = Some true.
Proof. destruct a as [[]|], b as [[]|]; simpl; intuition congruence. Qed.

Lemma and3_false_l (b : bcol) : Some false &&& b = Some false.
Proof. reflexivity. Qed.

Lemma keep_true {R} (cond : R -> bcol) (r : R) :
  keep cond r = true <-> cond r = Some true.
Proof. unfold keep. destruct (cond r) as [[]|]; intuition congruence. Qed.

Lemma in_df_filter {R} (cond : R -> bcol) (df : list R) (r : R) :
  In r (df_filter cond df) <-> In r df /\ cond r = Some true.
Proof. unfold df_filter. rewrite filter_In, keep_true. reflexivity. Qed.

Lemma isNotNull_true {A} (c : option A) : isNotNull c = Some true <-> c <> None.
Proof.
  destruct c; simpl; split; intro H;
    try discriminate; try reflexivity; now destruct H.
Qed.

Lemma ige_true c n : ige c n = Some true <-> exists v, c = Some v /\ n <= v.
Proof.
  destruct c as [v|]; simpl.
  - split.
    + intros [= H]. apply Z.geb_le in H. eauto.
    + intros (v' & [= <-] & H). apply Z.geb_le in H. now rewrite H.
  - split; [discriminate | intros (v & H & _); discriminate].
Qed.

Lemma ile_true c n : ile c n = Some true <-> exists v, c = Some v /\ v <= n.
Proof.
  destruct c as [v|]; simpl.
  - split.
    + intros [= H]. apply Z.leb_le in H. eauto.
    + intros (v' & [= <-] & H). apply Z.leb_le in H. now rewrite H.
  - split; [discriminate | intros (v & H & _); discriminate].
Qed.

Lemma ieq_true c n : ieq c n = Some true <-> c = Some n.
Proof.
  destruct c as [v|]; simpl; [|split; discriminate].
  destruct (Z.eqb_spec v n); split; intro H; congruence.
Qed.

Lemma fgt_true c n :
  fgt c n = Some true <-> exists d, c = Some d /\ d_lt (lit n) d.
Proof.
  unfold fgt, d_lt, dlt. destruct c as [d|]; simpl.
  - split.
    + intros [= H]. exists d. split; [reflexivity|].
      destruct (dcompare (lit n) d); congruence.
    + intros (d' & [= <-] & H). now rewrite H.
  - split; [discriminate | intros (d & H & _); discriminate].
Qed.

Lemma flt_true c n :
  flt c n = Some true <-> exists d, c = Some d /\ d_lt d (lit n).
Proof.
  unfold flt, d_lt, dlt. destruct c as [d|]; simpl.
  - split.
    + intros [= H]. exists d. split; [reflexivity|].
      destruct (dcompare d (lit n)); congruence.
    + intros (d' & [= <-] & H). now rewrite H.
  - split; [discriminate | intros (d & H & _); discriminate].
Qed.

Lemma fge_true c n :
  fge c n = Some true <-> exists d, c = Some d /\ d_le (lit n) d.
Proof.
  unfold fge, d_le, dle. destruct c as [d|]; simpl.
  - split.
    + intros [= H]. exists d. split; [reflexivity|].
      destruct (dcompare (lit n) d); congruence.
    + intros (d' & [= <-] & H). destruct (dcompare (lit n) d); congruence.
  - split; [discriminate | intros (d & H & _); discriminate].
Qed.

Lemma fle_true c n :
  fle c n = Some true <-> exists d, c = Some d /\ d_le d (lit n).
Proof.
  unfold fle, d_le, dle. destruct c as [d|]; simpl.
  - split.
    + intros [= H]. exists d. split; [reflexivity|].
      destruct (dcompare d (lit n)); congruence.
    + intros (d' & [= <-] & H). destruct (dcompare d (lit n)); congruence.
  - split; [discriminate | intros (d & H & _); discriminate].
Qed.

Lemma isin_1_6 c :
  isin c [1; 2; 3; 4; 5; 6] = Some true <-> exists v, c = Some v /\ 1 <= v <= 6.
Proof.
  destruct c as [v|]; simpl.
  - split.
    + intros [= H]. exists v. split; [reflexivity|].
      repeat (apply orb_prop in H; destruct H as [H|H]);
        try apply Z.eqb_eq in H; try lia; discriminate.
    + intros (v' & [= <-] & H). f_equal.
      assert (v = 1 \/ v = 2 \/ v = 3 \/ v = 4 \/ v = 5 \/ v = 6) as Hv by lia.
      repeat destruct Hv as [-> | Hv]; try subst v; reflexivity.
  - split; [discriminate | intros (v & H & _); discriminate].
Qed.

Lemma within_true lo hi c :
  fge c lo &&& fle c hi = Some true <-> within lo hi c.
Proof.
  rewrite and3_true, fge_true, fle_true. unfold within. split.
  - intros ((d & Hd & H1) & (d' & Hd' & H2)). exists d.
    rewrite Hd in Hd'. injection Hd' as <-. auto.
  - intros (d & Hd & H1 & H2). split; eauto.
Qed.

Lemma strictly_between_true lo hi c :
  fgt c lo &&& flt c hi = Some true <-> strictly_between lo hi c.
Proof.
  rewrite and3_true, fgt_true, flt_true. unfold strictly_between. split.
  - intros ((d & Hd & H1) & (d' & Hd' & H2)). exists d.
    rewrite Hd in Hd'. injection Hd' as <-. auto.
  - intros (d & Hd & H1 & H2). split; eauto.
Qed.

Lemma and3_assoc (a b c : bcol) : a &&& b &&& c = a &&& (b &&& c).
Proof. destruct a as [[]|], b as [[]|], c as [[]|]; reflexivity. Qed.

(** The condition of [df_filtered_early], clause by clause. *)
Lemma ValidityFilter_true {T} (r : row T) :
  ValidityFilter r = Some true <-> ValidityFilter_engine r.
Proof.
  unfold ValidityFilter, ValidityFilter_engine.
  rewrite !and3_true, !isNotNull_true, !fgt_true, !flt_true, fge_true,
    ige_true, ile_true, !isin_1_6.
  unfold strictly_between. split.
  - intros (((((((((((((((H1 & H2) & H3) & H4) & H5) & (n & Hn & Hn1)) &
      (n' & Hn' & Hn8)) & (d & Hd & Hd0)) & (d' & Hd' & Hd5)) &
      (f & Hf & Hf0)) & (f' & Hf' & Hf1)) & (t & Ht & Ht0)) &
      (t' & Ht' & Ht1)) & Htip) & Hrate) & Hpay).
    rewrite Hn in Hn'. injection Hn' as <-.
    rewrite Hd in Hd'. injection Hd' as <-.
    rewrite Hf in Hf'. injection Hf' as <-.
    rewrite Ht in Ht'. injection Ht' as <-.
    repeat split; eauto 6.
  - intros ((H1 & H2 & H3 & H4 & H5) & (n & Hn & Hn1 & Hn8) &
      (d & Hd & Hd0 & Hd5) & (f & Hf & Hf0 & Hf1) & (t & Ht & Ht0 & Ht1) &
      Htip & Hrate & Hpay).
    repeat split; eauto.
Qed.

(** Spark's order of doubles against the IEEE order: they differ on NaN
    only, which Spark puts above every number and equal to itself. *)
Lemma SFcompare_None (a b : double) :
  SFcompare a b = None <-> is_nan a = true \/ is_nan b = true.
Proof.
  destruct a as [sa|sa| |sa ma ea], b as [sb|sb| |sb mb eb]; simpl;
    try (split; [discriminate | intros [H|H]; discriminate H]);
    try (split; [intros _; auto | reflexivity]).
Qed.

Lemma d_lt_ieee (a b : double) :
  d_lt a b <-> ieee_lt a b \/ (is_nan a = false /\ is_nan b = true).
Proof.
  unfold d_lt, ieee_lt, dcompare, SFltb.
  destruct (SFcompare a b) as [c|] eqn:E.
  - assert (Hn : ~ (is_nan a = true \/ is_nan b = true)).
    { rewrite <- SFcompare_None. congruence. }
    destruct c; split; try discriminate; auto;
      intros [H|(_ & H)]; try discriminate H; destruct Hn; auto.
  - apply SFcompare_None in E.
    destruct (is_nan a), (is_nan b); split; try discriminate; auto;
      try (intros [H|(H1 & H2)]; discriminate);
      destruct E as [E|E]; discriminate E.
Qed.

Lemma d_le_ieee (a b : double) :
  d_le a b <-> ieee_le a b \/ is_nan b = true.
Proof.
  unfold d_le, ieee_le, dcompare, SFleb.
  destruct (SFcompare a b) as [c|] eqn:E.
  - assert (Hn : ~ (is_nan a = true \/ is_nan b = true)).
    { rewrite <- SFcompare_None. congruence. }
    destruct c; split; try congruence; auto;
      intros [H|H]; try discriminate H; destruct Hn; auto.
  - apply SFcompare_None in E.
    destruct (is_nan a), (is_nan b); split; try congruence; auto;
      try (intros [H|H]; discriminate H);
      destruct E as [E|E]; discriminate E.
Qed.

Lemma ieee_lt_number_l (a b : double) : ieee_lt a b -> is_nan a = false.
Proof. unfold ieee_lt, SFltb. now destruct a. Qed.

Lemma ieee_le_number_r (a b : double) : ieee_le a b -> is_nan b = false.
Proof. unfold ieee_le, SFleb. now destruct a, b. Qed.

(** A bound on both sides leaves no room for a NaN: there the two orders
    agree. *)
Lemma strictly_between_ieee lo hi c :
  is_nan (lit hi) = false ->
  strictly_between lo hi c <-> above_and_below lo hi c.
Proof.
  intros Hhi. unfold strictly_between, above_and_below. split.
  - intros (d & Hd & H1 & H2). exists d. split; [assumption|].
    apply d_lt_ieee in H2 as [H2|(_ & H2)]; [|congruence].
    apply d_lt_ieee in H1 as [H1|(_ & H1)]; [auto|].
    apply ieee_lt_number_l in H2. congruence.
  - intros (d & Hd & H1 & H2). exists d.
    repeat split; try assumption; apply d_lt_ieee; auto.
Qed.

(** The condition of [df_filtered_early] against the amended contract. *)
Lemma ValidityFilter_amended_true {T} (r : row T) :
  ValidityFilter r = Some true <-> ValidityFilter_amended r.
Proof.
  rewrite ValidityFilter_true.
  unfold ValidityFilter_engine, ValidityFilter_amended, ValidityFilter_bounds.
  rewrite !strictly_between_ieee by reflexivity. split.
  - intros (H1 & H2 & H3 & H4 & H5 & (t & Ht & Hle) & H7 & H8).
    repeat split; try tauto; try assumption.
    exists t. split; [assumption|]. now apply d_le_ieee.
  - intros ((H1 & H2 & H3 & H4 & H5 & H7 & H8) & (t & Ht & Hle)).
    repeat split; try tauto; try assumption.
    exists t. split; [assumption|]. now apply d_le_ieee.
Qed.

Lemma lit_0 : lit 0 = S754_zero false.
Proof. reflexivity. Qed.

Lemma lit_1 : lit 1 = S754_finite false 4503599627370496 (-52).
Proof. reflexivity. Qed.

(** A double that is at least one is above zero. *)
Lemma one_le_positive (m : double) : d_le (lit 1) m -> d_lt (lit 0) m.
Proof.
  unfold d_le, d_lt, dcompare. rewrite lit_0, lit_1.
  destruct m as [s | s | | s m e]; simpl; try destruct s; simpl; congruence.
Qed.

(** A zero is below one. *)
Lemma zero_not_ge_one (d : double) : is_zero d = true -> dle (lit 1) d = false.
Proof. destruct d; try discriminate. reflexivity. Qed.

Section Job.

Variable to_timestamp : string -> string -> option timestamp.
Variables year hour dayofweek month : timestamp -> Z.

#[local] Abbreviation DeriveColumns := (DeriveColumns to_timestamp).
#[local] Abbreviation df_with_timestamps := (df_with_timestamps to_timestamp).
#[local] Abbreviation df_date_filtered := (df_date_filtered to_timestamp year).
#[local] Abbreviation Enrichment := (Enrichment hour dayofweek month).
#[local] Abbreviation df_enriched := (df_enriched to_timestamp year hour dayofweek month).
#[local] Abbreviation df_final := (df_final to_timestamp year hour dayofweek month).

Lemma in_df_final (df : list (row string)) (e : enriched) :
  In e (df_final df) <->
  exists r, In r df /\ ValidityFilter r = Some true /\
            DateFilter year (DeriveColumns r) = Some true /\
            e = Enrichment (DeriveColumns r) /\
            RangeFilter e = Some true.
Proof.
  unfold Spark.df_final, Spark.df_enriched, Spark.df_date_filtered,
    Spark.df_with_timestamps, df_filtered_early.
  rewrite in_df_filter, in_map_iff. split.
  - intros ((t & <- & Ht) & Hrange).
    apply in_df_filter in Ht as (Ht & Hdate).
    apply in_map_iff in Ht as (r & <- & Hr).
    apply in_df_filter in Hr as (Hr & Hvalid).
    exists r. auto.
  - intros (r & Hr & Hvalid & Hdate & -> & Hrange). split; [|assumption].
    exists (DeriveColumns r). split; [reflexivity|].
    apply in_df_filter. split; [|assumption].
    apply in_map_iff. exists r. split; [reflexivity|].
    apply in_df_filter. auto.
Qed.

Lemma RangeFilter_true (e : enriched) :
  RangeFilter e = Some true <-> RangeFilter_spec e.
Proof.
  unfold RangeFilter_spec. rewrite <- !within_true.
  unfold RangeFilter. rewrite !and3_true. tauto.
Qed.

(** C8, amended.  [ValidityFilter] keeps a raw row exactly when none of
    the pickup and dropoff texts, passenger count, trip distance and fare
    amount is null, 1 <= passenger_count <= 8, 0 < trip_distance < 500,
    0 < fare_amount < 1000, 0 < total_amount < 1000, tip_amount >= 0 or
    tip_amount is NaN, and rate code and payment type are in 1..6.  A row
    with nine passengers is dropped there, and no row handed to
    [DeriveColumns] carries nine passengers. *)
Theorem validity_filter_contract (df : list (row string)) (r : row string) :
  (In r (df_filtered_early df) <-> In r df /\ ValidityFilter_amended r) /\
  (passenger_count r = Some 9 -> ~ In r (df_filtered_early df)) /\
  (forall t, In t (df_with_timestamps df) -> passenger_count t <> Some 9).
Proof.
  assert (Hin : forall x, In x (df_filtered_early df) <->
                          In x df /\ ValidityFilter_amended x).
  { intros x. unfold df_filtered_early.
    now rewrite in_df_filter, ValidityFilter_amended_true. }
  assert (Hnine : forall x, passenger_count x = Some 9 ->
                            ~ In x (df_filtered_early df)).
  { intros x H9 Hx. apply Hin in Hx as (_ & (_ & (n & Hn & Hle) & _) & _).
    rewrite H9 in Hn. injection Hn as <-. lia. }
  split; [apply Hin | split; [apply Hnine |]].
  intros t Ht H9. unfold Spark.df_with_timestamps in Ht.
  apply in_map_iff in Ht as (x & <- & Hx). now apply (Hnine x).
Qed.


(** C10. Every row of the final output has its pickup strictly before its
    dropoff and a duration above zero, and its [speed_mph] is the
    quotient trip_distance / (trip_duration_minutes / 60): the [otherwise]
    branch of the derivation is not taken for it. *)
Theorem final_rows_have_positive_duration (df : list (row string)) (e : enriched) :
  In e (df_final df) ->
  (exists p d, tpep_pickup_datetime (base e) = Some p /\
               tpep_dropoff_datetime (base e) = Some d /\ p < d) /\
  (exists m, trip_duration_minutes e = Some m /\ d_lt (lit 0) m) /\
  fgt (trip_duration_minutes e) 0 = Some true /\
  speed_mph e =
    div (trip_distance (base e)) (div (trip_duration_minutes e) (Some (lit 60))) /\
  (exists d m, trip_distance (base e) = Some d /\
               trip_duration_minutes e = Some m /\
               speed_mph e = Some (ddiv d (ddiv m (lit 60)))).
Proof.
  intros He. apply in_df_final in He as (r & _ & _ & Hdate & -> & Hrange).
  apply RangeFilter_true in Hrange as ((m & Hm & Hlo & _) & (v & Hv & _) & _).
  assert (Hpos : fgt (trip_duration_minutes (Enrichment (DeriveColumns r))) 0
                 = Some true).
  { apply fgt_true. exists m. split; [assumption|]. now apply one_le_positive. }
  assert (Hspeed :
    speed_mph (Enrichment (DeriveColumns r)) =
    div (trip_distance (DeriveColumns r))
        (div (trip_duration_minutes (Enrichment (DeriveColumns r)))
             (Some (lit 60)))).
  { cbn [speed_mph base Spark.Enrichment trip_duration_minutes] in *.
    now rewrite Hpos. }
  split; [|split; [|split; [|split]]].
  - unfold DateFilter in Hdate.
    rewrite !and3_true in Hdate.
    destruct Hdate as ((((_ & _) & Hlt) & _) & _).
    cbn [base Spark.Enrichment].
    destruct (tpep_pickup_datetime (DeriveColumns r)) as [p|]; [|discriminate].
    destruct (tpep_dropoff_datetime (DeriveColumns r)) as [d|]; [|discriminate].
    exists p, d. repeat split. simpl in Hlt. injection Hlt as Hlt.
    now apply Z.ltb_lt.
  - exists m. split; [assumption|]. now apply one_le_positive.
  - exact Hpos.
  - exact Hspeed.
  - rewrite Hspeed in Hv. rewrite Hm in Hv. rewrite Hspeed, Hm.
    change (base (Enrichment (DeriveColumns r))) with (DeriveColumns r).
    change (div (Some m) (Some (lit 60))) with (Some (ddiv m (lit 60))) in *.
    destruct (trip_distance (DeriveColumns r)) as [d|]; [|discriminate].
    exists d, m. repeat split. unfold div in *.
    now destruct (is_zero (ddiv m (lit 60))).
Qed.

End Job.


Lemma final_rows_have_positive_duration_witness :
  exists m, trip_duration_minutes (utc_enrich trip_ok) = Some m /\ d_lt (lit 0) m.
Proof.
  refine (proj1 (proj2 (final_rows_have_positive_duration UTC.to_timestamp
            UTC.year UTC.hour UTC.dayofweek UTC.month
            [trip_ok; trip_nine_passengers; trip_zero_minutes]
            (utc_enrich trip_ok) _))).
  vm_compute. left. reflexivity.
Defined.

(** C8 as stated fails: a row whose tip is NaN is kept, and NaN is not
    at least zero. *)
Lemma nan_tip_is_kept : ~ keeps_exactly_the_valid_rows.
Proof.
  intros H.
  assert (Hin : In trip_nan_tip (df_filtered_early [trip_nan_tip])).
  { vm_compute. left. reflexivity. }
  apply H in Hin as (_ & _ & (t & Ht & Hle)).
  injection Ht as <-. vm_compute in Hle. discriminate.
Qed.

(** The example trip is kept and meets the bounds; the same trip with nine
    passengers is dropped. *)
Lemma validity_filter_contract_witness :
  In trip_ok (df_filtered_early [trip_ok; trip_nine_passengers; trip_nan_tip]) /\
  ValidityFilter_amended trip_ok /\
  ~ In trip_nine_passengers
       (df_filtered_early [trip_ok; trip_nine_passengers; trip_nan_tip]).
Proof.
  assert (Hin : In trip_ok
            (df_filtered_early [trip_ok; trip_nine_passengers; trip_nan_tip])).
  { vm_compute. left. reflexivity. }
  split; [exact Hin|]. split.
  - exact (proj2 (proj1 (proj1 (validity_filter_contract UTC.to_timestamp
             [trip_ok; trip_nine_passengers; trip_nan_tip] trip_ok)) Hin)).
  - exact (proj1 (proj2 (validity_filter_contract UTC.to_timestamp
             [trip_ok; trip_nine_passengers; trip_nan_tip]
             trip_nine_passengers)) eq_refl).
Defined.

(** ** More on the pipeline *)

Section Output.

Variable to_timestamp : string -> string -> option timestamp.
Variables year hour dayofweek month : timestamp -> Z.

#[local] Abbreviation DeriveColumns := (DeriveColumns to_timestamp).
#[local] Abbreviation Enrichment := (Enrichment hour dayofweek month).
#[local] Abbreviation df_final := (df_final to_timestamp year hour dayofweek month).

Lemma ValidityFilter_DeriveColumns (r : row string) :
  ValidityFilter_spec r ->
  tpep_pickup_datetime (DeriveColumns r) <> None ->
  tpep_dropoff_datetime (DeriveColumns r) <> None ->
  ValidityFilter_spec (DeriveColumns r).
Proof.
  intros (((_ & _ & H3 & H4 & H5) & Hrest) & Htip) Hp Hd.
  split; [|exact Htip]. split; [|exact Hrest]. repeat split; assumption.
Qed.

(** A quotient and a product of a NaN are NaN. *)
Lemma tip_percentage_nan (fare : double) :
  is_nan (dmul (ddiv S754_nan fare) (lit 100)) = true.
Proof. now destruct fare. Qed.

(** The upper bound on [tip_percentage] leaves no room for a tip that is
    NaN: a row of the final output meets the contract as the
    specification words it. *)
Lemma final_tip_is_a_number (r : row string) :
  ValidityFilter r = Some true ->
  RangeFilter (Enrichment (DeriveColumns r)) = Some true ->
  ValidityFilter_spec r.
Proof.
  intros Hvalid Hrange.
  pose proof (proj1 (ValidityFilter_true r) Hvalid)
    as (_ & _ & _ & (fare & Hfare & Hpos & _) & _ & _).
  apply ValidityFilter_amended_true in Hvalid as (Hb & (t & Ht & Htip)).
  split; [exact Hb|]. exists t. split; [exact Ht|].
  destruct Htip as [Htip|Hnan]; [exact Htip|]. exfalso.
  apply RangeFilter_true in Hrange as (_ & _ & (v & Hv & _ & Hhi)).
  assert (Hgt : fgt (fare_amount (DeriveColumns r)) 0 = Some true).
  { apply fgt_true. exists fare. split; [exact Hfare | exact Hpos]. }
  cbn [base Spark.Enrichment tip_percentage] in Hv.
  rewrite Hgt in Hv. cbn [when_otherwise] in Hv.
  change (fare_amount (DeriveColumns r)) with (fare_amount r) in Hv.
  change (tip_amount (DeriveColumns r)) with (tip_amount r) in Hv.
  rewrite Hfare, Ht in Hv.
  destruct t; try discriminate Hnan.
  assert (Hv' : v = dmul (ddiv S754_nan fare) (lit 100)).
  { unfold mul, div, lift2 in Hv. destruct (is_zero fare); congruence. }
  apply d_le_ieee in Hhi as [Hhi|Hhi]; [|discriminate Hhi].
  pose proof (tip_percentage_nan fare) as Hn. rewrite <- Hv' in Hn.
  unfold ieee_le, SFleb in Hhi. destruct v; discriminate.
Qed.

(** X1. Every row of the final output is an input row with its two
    datetime texts parsed, the other fourteen raw columns unchanged, and it
    still meets every bound of the validity filter. *)
Theorem final_rows_are_valid_input_rows (df : list (row string)) (e : enriched) :
  In e (df_final df) ->
  (exists r, In r df /\ base e = DeriveColumns r /\
             e = Enrichment (DeriveColumns r)) /\
  ValidityFilter_spec (base e).
Proof.
  intros He. apply in_df_final in He as (r & Hr & Hvalid & Hdate & -> & Hrange).
  split; [exists r; auto|].
  cbn [base Spark.Enrichment].
  unfold DateFilter in Hdate. rewrite !and3_true, !isNotNull_true in Hdate.
  destruct Hdate as ((((Hp & Hd) & _) & _) & _).
  apply ValidityFilter_DeriveColumns; try assumption.
  now apply final_tip_is_a_number.
Qed.

(** X2. Every row of the final output has its pickup and its dropoff in
    the year 2018. *)
Theorem final_rows_are_in_2018 (df : list (row string)) (e : enriched) :
  In e (df_final df) ->
  exists p d, tpep_pickup_datetime (base e) = Some p /\
              tpep_dropoff_datetime (base e) = Some d /\
              year p = 2018 /\ year d = 2018.
Proof.
  intros He. apply in_df_final in He as (r & _ & _ & Hdate & -> & _).
  cbn [base Spark.Enrichment].
  unfold DateFilter in Hdate. rewrite !and3_true, !ieq_true in Hdate.
  destruct Hdate as (((_ & _) & Hp) & Hd).
  destruct (tpep_pickup_datetime (DeriveColumns r)) as [p|]; [|discriminate].
  destruct (tpep_dropoff_datetime (DeriveColumns r)) as [d|]; [|discriminate].
  simpl in Hp, Hd. exists p, d. repeat split; congruence.
Qed.

(** X3. A row whose pickup text or dropoff text does not parse in the fixed
    format gives no row of the final output. *)
Theorem unparseable_rows_are_dropped (df : list (row string)) (r : row string) :
  to_timestamp_col to_timestamp (tpep_pickup_datetime r) = None \/
  to_timestamp_col to_timestamp (tpep_dropoff_datetime r) = None ->
  forall e, In e (df_final df) -> base e <> DeriveColumns r.
Proof.
  intros Hnone e He Hbase.
  apply in_df_final in He as (r' & _ & _ & Hdate & -> & _).
  cbn [base Spark.Enrichment] in Hbase. rewrite Hbase in Hdate.
  unfold DateFilter in Hdate. rewrite !and3_true, !isNotNull_true in Hdate.
  destruct Hdate as ((((Hp & Hd) & _) & _) & _).
  destruct Hnone as [H|H]; [apply Hp | apply Hd]; exact H.
Qed.

(** X4. For every row of the final output the fare is above zero, and
    [tip_percentage] is (tip_amount / fare_amount) * 100, a double, not the
    zero of the [otherwise] branch. *)
Theorem final_rows_have_their_tip_percentage (df : list (row string)) (e : enriched) :
  In e (df_final df) ->
  exists tip fare,
    tip_amount (base e) = Some tip /\ fare_amount (base e) = Some fare /\
    d_lt (lit 0) fare /\
    tip_percentage e = Some (dmul (ddiv tip fare) (lit 100)).
Proof.
  intros He. apply in_df_final in He as (r & _ & Hvalid & _ & -> & Hrange).
  apply ValidityFilter_true in Hvalid
    as (_ & _ & _ & (fare & Hfare & Hpos & _) & _ & (tip & Htip & _) & _).
  apply RangeFilter_true in Hrange as (_ & _ & (v & Hv & _)).
  assert (Hgt : fgt (fare_amount (DeriveColumns r)) 0 = Some true).
  { apply fgt_true. exists fare. split; [exact Hfare | exact Hpos]. }
  exists tip, fare. cbn [base Spark.Enrichment tip_percentage] in *.
  rewrite Hgt in *. cbn [when_otherwise] in *.
  change (fare_amount (DeriveColumns r)) with (fare_amount r) in *.
  change (tip_amount (DeriveColumns r)) with (tip_amount r) in *.
  rewrite Hfare, Htip in *. repeat split; try assumption.
  unfold mul, div, lift2 in *. now destruct (is_zero fare).
Qed.

End Output.

(** The example trip is in the output, in 2018, valid, with a tip of 20%. *)
Lemma final_rows_are_valid_input_rows_witness :
  ValidityFilter_spec (base (utc_enrich trip_ok)).
Proof.
  refine (proj2 (final_rows_are_valid_input_rows UTC.to_timestamp UTC.year
            UTC.hour UTC.dayofweek UTC.month
            [trip_ok; trip_nine_passengers; trip_zero_minutes]
            (utc_enrich trip_ok) _)).
  vm_compute. left. reflexivity.
Defined.

Lemma final_rows_are_in_2018_witness :
  exists p d, tpep_pickup_datetime (base (utc_enrich trip_ok)) = Some p /\
              tpep_dropoff_datetime (base (utc_enrich trip_ok)) = Some d /\
              UTC.year p = 2018 /\ UTC.year d = 2018.
Proof.
  refine (final_rows_are_in_2018 UTC.to_timestamp UTC.year UTC.hour
            UTC.dayofweek UTC.month
            [trip_ok; trip_nine_passengers; trip_zero_minutes]
            (utc_enrich trip_ok) _).
  vm_compute. left. reflexivity.
Defined.

Lemma unparseable_rows_are_dropped_witness :
  base (utc_enrich trip_ok) <> Spark.DeriveColumns UTC.to_timestamp trip_unparseable.
Proof.
  refine (unparseable_rows_are_dropped UTC.to_timestamp UTC.year UTC.hour
            UTC.dayofweek UTC.month [trip_ok; trip_unparseable]
            trip_unparseable _ (utc_enrich trip_ok) _).
  - left. reflexivity.
  - vm_compute. left. reflexivity.
Defined.

Lemma final_rows_have_their_tip_percentage_witness :
  exists tip fare,
    tip_amount (base (utc_enrich trip_ok)) = Some tip /\
    fare_amount (base (utc_enrich trip_ok)) = Some fare /\
    d_lt (lit 0) fare /\
    tip_percentage (utc_enrich trip_ok) = Some (dmul (ddiv tip fare) (lit 100)).
Proof.
  refine (final_rows_have_their_tip_percentage UTC.to_timestamp UTC.year
            UTC.hour UTC.dayofweek UTC.month
            [trip_ok; trip_nine_passengers; trip_zero_minutes]
            (utc_enrich trip_ok) _).
  vm_compute. left. reflexivity.
Defined.

End SparkFacts.

(* ===================================================================== *)
(** * Properties of the consolidation job *)
(* ===================================================================== *)

Module ConsolidateFacts.

Import Consolidate.

Lemma insert_perm (x : string) (l : list string) : insert x l ≡ₚ x :: l.
Proof.
  induction l as [|y l IH]; simpl; [reflexivity|].
  destruct (String.leb x y); [reflexivity|].
  rewrite IH. apply Permutation_swap.
Qed.

Lemma sorted_perm (l : list string) : sorted l ≡ₚ l.
Proof.
  induction l as [|x l IH]; simpl; [reflexivity|].
  now rewrite insert_perm, IH.
Qed.

Lemma flat_map_ext_elem {A B} (f g : A -> list B) (l : list A) :
  (forall a, a ∈ l -> f a = g a) -> flat_map f l = flat_map g l.
Proof.
  induction l as [|a l IH]; intros H; simpl; [reflexivity|].
  rewrite (H a), IH; [reflexivity | | left].
  intros b Hb. apply H. now right.
Qed.

Section Frames.

Variable record : Type.
Implicit Types (w : world record) (st : loop_state record) (p : string).

(** One iteration: the chunk's contribution is appended, the folder goes
    through [rmtree] when it contributed, and nothing else changes. *)
Lemma process_chunk_spec st p :
  let st' := process_chunk st p in
  all_data st' = all_data st ++ contribution (fs st) p /\
  (forall q, chunk_folders (fs st') !! q =
             if decide (q = p) then after_loop (fs st) p
             else chunk_folders (fs st) !! q) /\
  PARQUET_PATH (fs st') = PARQUET_PATH (fs st) /\
  written (fs st') = written (fs st) /\
  to_parquet_ok (fs st') = to_parquet_ok (fs st) /\
  root_exists (fs st') = root_exists (fs st) /\
  other_entries (fs st') = other_entries (fs st) /\
  consolidated_inside (fs st') = consolidated_inside (fs st) /\
  rmdir_ok (fs st') = rmdir_ok (fs st).
Proof.
  unfold process_chunk, after_loop, contribution.
  destruct (chunk_folders (fs st) !! p) as [c|] eqn:E; simpl.
  - destruct (parquet_files c) as [|[name [df_chunk|]] rest]; simpl;
      rewrite ?app_nil_r; repeat split; try reflexivity;
      intros q; destruct (decide (q = p)) as [->|Hne]; try congruence.
    + apply lookup_partial_alter_eq.
    + now apply lookup_partial_alter_ne.
  - rewrite app_nil_r. repeat split; try reflexivity.
    intros q. destruct (decide (q = p)) as [->|Hne]; congruence.
Qed.

Lemma contribution_other st p q :
  p <> q -> contribution (fs (process_chunk st p)) q = contribution (fs st) q.
Proof.
  intros Hne. unfold contribution.
  destruct (process_chunk_spec st p) as (_ & Hc & _). simpl in Hc.
  rewrite Hc. now destruct (decide (q = p)); [congruence|].
Qed.

Lemma after_loop_other st p q :
  p <> q -> after_loop (fs (process_chunk st p)) q = after_loop (fs st) q.
Proof.
  intros Hne. unfold after_loop. rewrite contribution_other by assumption.
  destruct (process_chunk_spec st p) as (_ & Hc & _). simpl in Hc.
  rewrite Hc. now destruct (decide (q = p)); [congruence|].
Qed.

(** The loop over distinct paths. *)
Lemma process_chunks_spec (ps : list string) st :
  NoDup ps ->
  let st' := process_chunks st ps in
  all_data st' = all_data st ++ flat_map (contribution (fs st)) ps /\
  (forall p, chunk_folders (fs st') !! p =
             if bool_decide (p ∈ ps) then after_loop (fs st) p
             else chunk_folders (fs st) !! p) /\
  PARQUET_PATH (fs st') = PARQUET_PATH (fs st) /\
  written (fs st') = written (fs st) /\
  to_parquet_ok (fs st') = to_parquet_ok (fs st) /\
  root_exists (fs st') = root_exists (fs st) /\
  other_entries (fs st') = other_entries (fs st) /\
  consolidated_inside (fs st') = consolidated_inside (fs st) /\
  rmdir_ok (fs st') = rmdir_ok (fs st).
Proof.
  revert st. induction ps as [|q ps IH]; intros st Hnd; simpl.
  - rewrite app_nil_r. repeat split; auto.
  - apply NoDup_cons in Hnd as (Hq & Hnd).
    destruct (IH (process_chunk st q) Hnd)
      as (Hdata & Hdel & H1 & H2 & H3 & H4 & H5 & H6 & H7).
    destruct (process_chunk_spec st q)
      as (Hd1 & Hc1 & G1 & G2 & G3 & G4 & G5 & G6 & G7).
    simpl in *. unfold process_chunks in *.
    repeat split; try congruence.
    + rewrite Hdata, Hd1, <- app_assoc. f_equal. f_equal.
      apply flat_map_ext_elem. intros a Ha.
      apply contribution_other. intros ->. contradiction.
    + intros p. rewrite Hdel, Hc1.
      destruct (decide (p = q)) as [->|Hne].
      * rewrite (bool_decide_eq_false_2 (q ∈ ps)) by assumption.
        now rewrite bool_decide_eq_true_2 by left.
      * rewrite after_loop_other by congruence.
        assert (bool_decide (p ∈ q :: ps) = bool_decide (p ∈ ps)) as ->.
        { apply bool_decide_ext. rewrite elem_of_cons. tauto. }
        reflexivity.
Qed.

Lemma glob_elem w p : p ∈ glob w <-> is_Some (chunk_folders w !! p).
Proof.
  unfold glob. rewrite list_elem_of_fmap. split.
  - intros ([q c] & -> & H). apply elem_of_map_to_list in H. simpl. eauto.
  - intros [c H]. exists (p, c). split; [reflexivity|].
    now apply elem_of_map_to_list.
Qed.

Lemma sorted_glob_NoDup w : NoDup (sorted (glob w)).
Proof.
  rewrite sorted_perm. unfold glob. apply NoDup_fst_map_to_list.
Qed.

Lemma after_loop_outside w p : chunk_folders w !! p = None -> after_loop w p = None.
Proof. intros H. unfold after_loop. now rewrite H. Qed.

(** What the loop of a run leaves, in terms of the world it started from. *)
Lemma loop_spec w :
  let st := process_chunks {| fs := w; all_data := []; total_records := 0 |}
                           (sorted (glob w)) in
  all_data st = flat_map (contribution w) (sorted (glob w)) /\
  (forall p, chunk_folders (fs st) !! p = after_loop w p) /\
  PARQUET_PATH (fs st) = PARQUET_PATH w /\
  written (fs st) = written w /\
  to_parquet_ok (fs st) = to_parquet_ok w.
Proof.
  destruct (process_chunks_spec (sorted (glob w))
              {| fs := w; all_data := []; total_records := 0 |}
              (sorted_glob_NoDup w)) as (H1 & H2 & H3 & H4 & H5 & _).
  simpl in *. repeat split; try assumption.
  intros p. rewrite H2. destruct (bool_decide (p ∈ sorted (glob w))) eqn:Hin;
    [reflexivity|].
  apply bool_decide_eq_false_1 in Hin. rewrite sorted_perm, glob_elem in Hin.
  destruct (chunk_folders w !! p) as [c|] eqn:E.
  - destruct Hin. eauto.
  - now rewrite after_loop_outside.
Qed.

Lemma one_part w p c :
  one_part_per_chunk w = true -> chunk_folders w !! p = Some c ->
  (length (parquet_files c) <= 1)%nat.
Proof.
  unfold one_part_per_chunk. rewrite forallb_forall. intros H Hc.
  apply Nat.leb_le. apply (H (p, c)). apply list_elem_of_In.
  now apply elem_of_map_to_list.
Qed.

(** With one parquet file in each chunk folder, the first file of a
    folder is all of it. *)
Lemma contribution_all w p :
  one_part_per_chunk w = true -> contribution w p = folder_frames w p.
Proof.
  intros H. unfold contribution, folder_frames.
  destruct (chunk_folders w !! p) as [c|] eqn:E; [|reflexivity].
  pose proof (one_part w p c H E) as Hlen.
  destruct (parquet_files c) as [|[name [df|]] [|f rest]]; simpl in *;
    try reflexivity; lia.
Qed.

Lemma after_loop_all w p :
  one_part_per_chunk w = true -> after_loop w p = deleted_once_read w p.
Proof.
  intros H. unfold after_loop, deleted_once_read.
  now rewrite (contribution_all w p H).
Qed.


End Frames.



(** ** More on the job *)

Section Run.

Variable record : Type.
Implicit Types (w : world record) (st : loop_state record) (p : string).

Lemma loop_keeps w :
  let st := process_chunks {| fs := w; all_data := []; total_records := 0 |}
                           (sorted (glob w)) in
  root_exists (fs st) = root_exists w /\
  other_entries (fs st) = other_entries w /\
  consolidated_inside (fs st) = consolidated_inside w /\
  rmdir_ok (fs st) = rmdir_ok w.
Proof.
  destruct (process_chunks_spec record (sorted (glob w))
              {| fs := w; all_data := []; total_records := 0 |}
              (sorted_glob_NoDup record w))
    as (_ & _ & _ & _ & _ & H4 & H5 & H6 & H7).
  now repeat split.
Qed.

Lemma contribution_in_glob w p : contribution w p <> [] -> p ∈ sorted (glob w).
Proof.
  intros H. rewrite sorted_perm. apply glob_elem.
  unfold contribution in H. destruct (chunk_folders w !! p); [eauto | congruence].
Qed.

Lemma flat_map_nil {A B} (f : A -> list B) (l : list A) :
  flat_map f l = [] <-> forall a, a ∈ l -> f a = [].
Proof.
  induction l as [|a l IH]; simpl.
  - split; [intros _ a Ha; now apply elem_of_nil in Ha | reflexivity].
  - split.
    + intros H a' Ha'. apply app_eq_nil in H as (H1 & H2).
      apply elem_of_cons in Ha' as [->|Ha']; [assumption|]. now apply IH.
    + intros H. rewrite (H a) by left. simpl. apply IH.
      intros a' Ha'. apply H. now right.
Qed.

(** X5. Without [PARQUET_PATH] in the environment (unset or empty), and
    when no path matches [chunk_*], the job returns nothing and leaves the
    file system as it found it. *)
Theorem nothing_to_do_changes_nothing w :
  runs w = false \/ chunk_folders w = ∅ ->
  consolidate_chunks_and_cleanup w = (None, w).
Proof.
  unfold consolidate_chunks_and_cleanup, runs, glob.
  intros [H|H].
  - destruct (PARQUET_PATH w) as [[|a base]|]; try reflexivity. discriminate.
  - rewrite H, map_to_list_empty. simpl.
    now destruct (PARQUET_PATH w) as [[|a base]|].
Qed.

(** X6. The job returns a path exactly when [PARQUET_PATH] is set, the
    first parquet file of at least one chunk folder could be read, and the
    final write succeeds. *)
Theorem returns_a_path_exactly_when w :
  is_Some (fst (consolidate_chunks_and_cleanup w)) <->
  runs w = true /\ (exists p, contribution w p <> []) /\ to_parquet_ok w = true.
Proof.
  unfold consolidate_chunks_and_cleanup, runs. cbv zeta.
  destruct (loop_spec record w) as (Hdata & _ & _ & _ & Hok).
  remember (sorted (glob w)) as ps eqn:Hps.
  remember (process_chunks {| fs := w; all_data := []; total_records := 0 |}
              ps) as st eqn:Hst.
  assert (Hsome : all_data st <> [] <-> exists p, contribution w p <> []).
  { rewrite Hdata. split.
    - intros H. destruct (flat_map (contribution w) ps) as [|d ds] eqn:E;
        [congruence|].
      destruct (decide (Forall (fun p => contribution w p = []) ps)) as [Hall|Hn].
      + assert (flat_map (contribution w) ps = []) as E'.
        { apply flat_map_nil. intros a Ha.
          rewrite Forall_forall in Hall. now apply Hall. }
        congruence.
      + apply not_Forall_Exists in Hn; [|intros x; apply _].
        apply Exists_exists in Hn as (p & _ & Hp). eauto.
    - intros (p & Hp) H. rewrite flat_map_nil in H. apply Hp, H.
      subst ps. now apply contribution_in_glob. }
  destruct (PARQUET_PATH w) as [[|a base]|] eqn:Hpath; simpl;
    try (split; [(intros Hs; destruct Hs as [? Hs]; discriminate Hs) | intros ([=] & _)]).
  destruct (glob w) as [|g gs] eqn:Hg.
  { simpl. split; [(intros Hs; destruct Hs as [? Hs]; discriminate Hs)|]. intros (_ & (p & Hp) & _).
    apply contribution_in_glob in Hp. rewrite Hg in Hp. simpl in Hp.
    now apply elem_of_nil in Hp. }
  destruct (all_data st) as [|d ds] eqn:Hall; simpl.
  { split; [(intros Hs; destruct Hs as [? Hs]; discriminate Hs)|]. intros (_ & Hex & _).
    apply Hsome in Hex. congruence. }
  rewrite <- Hok. destruct (to_parquet_ok (fs st)); simpl.
  - split; [|eauto]. intros _. repeat split. apply Hsome. congruence.
  - split; [(intros Hs; destruct Hs as [? Hs]; discriminate Hs) | intros (_ & _ & [=])].
Qed.

Lemma after_rmtree_listed (c c' : chunk record) :
  after_rmtree c = Some c' -> listed c' = listed c.
Proof.
  unfold after_rmtree. destruct (rmtree c); [|discriminate].
  now intros [= <-].
Qed.

(** After the loop the directory lists no chunk folder exactly when the
    loop consumed each one it listed. *)
Lemma all_consumed w st :
  (forall p, chunk_folders (fs st) !! p = after_loop w p) ->
  forallb (fun pc => negb (listed pc.2)) (map_to_list (chunk_folders (fs st)))
    = true <->
  forall p c, chunk_folders w !! p = Some c -> listed c = true ->
              consumed w p = true.
Proof.
  intros Hdel. rewrite forallb_forall. split.
  - intros H p c Hc Hl. unfold consumed.
    pose proof (Hdel p) as Hp. unfold after_loop in *. rewrite Hc in *.
    destruct (contribution w p) as [|d ds].
    + apply elem_of_map_to_list, list_elem_of_In, H in Hp. simpl in Hp.
      rewrite Hl in Hp. discriminate.
    + destruct (after_rmtree c) as [c'|] eqn:E; [|reflexivity].
      apply after_rmtree_listed in E.
      apply elem_of_map_to_list, list_elem_of_In, H in Hp. simpl in Hp.
      rewrite E, Hl in Hp. discriminate.
  - intros H [p c'] Hin. simpl.
    apply list_elem_of_In, elem_of_map_to_list in Hin. rewrite Hdel in Hin.
    destruct (listed c') eqn:Hl; [|reflexivity]. exfalso.
    unfold after_loop in Hin.
    destruct (chunk_folders w !! p) as [c|] eqn:Hc; [|discriminate].
    specialize (H p c Hc). unfold consumed, after_loop in H.
    rewrite Hc in H.
    destruct (contribution w p) as [|d ds].
    + injection Hin as ->. specialize (H Hl). discriminate.
    + rewrite Hin in H. apply after_rmtree_listed in Hin.
      rewrite Hin in Hl. specialize (H Hl). discriminate.
Qed.

(** X7. A run that returns nothing leaves the chunk directory in place.
    After a run that returns a path, the chunk directory is gone exactly
    when it was not there before, or [os.listdir] and [os.rmdir] work on
    it, it held nothing but chunk folders, the consolidated file is not
    written inside it, and the loop consumed every chunk folder it
    listed. *)
Theorem chunk_directory_removed_when_empty w :
  let res := fst (consolidate_chunks_and_cleanup w) in
  let w' := snd (consolidate_chunks_and_cleanup w) in
  (res = None -> root_exists w' = root_exists w) /\
  (forall path, res = Some path ->
     (root_exists w' = false <->
      root_exists w = false \/
      (rmdir_ok w = true /\ other_entries w = false /\
       consolidated_inside w = false /\
       forall p c, chunk_folders w !! p = Some c -> listed c = true ->
                   consumed w p = true))).
Proof.
  unfold consolidate_chunks_and_cleanup. cbv zeta.
  destruct (loop_keeps w) as (Hroot & Hother & Hinside & Hrmdir).
  destruct (loop_spec record w) as (_ & Hdel & _).
  apply all_consumed in Hdel.
  remember (sorted (glob w)) as ps eqn:Hps.
  remember (process_chunks {| fs := w; all_data := []; total_records := 0 |}
              ps) as st eqn:Hst.
  destruct (PARQUET_PATH w) as [[|a base]|]; simpl;
    try (split; [reflexivity | discriminate]).
  destruct (glob w) as [|g gs]; simpl; [split; [reflexivity | discriminate]|].
  destruct (all_data st) as [|d ds]; simpl;
    [split; [intros _; exact Hroot | discriminate]|].
  destruct (to_parquet_ok (fs st)); simpl;
    [|split; [intros _; exact Hroot | discriminate]].
  split; [discriminate|]. intros path _.
  rewrite <- Hroot, <- Hother, <- Hinside, <- Hrmdir, <- Hdel.
  unfold listdir_empty. cbn [chunk_folders other_entries consolidated_inside
    with_written].
  destruct (root_exists (fs st)) eqn:R; simpl; [|rewrite R; tauto].
  destruct (rmdir_ok (fs st)) eqn:D; simpl;
    [|rewrite R; split; [discriminate | intros [H|(H & _)]; discriminate H]].
  destruct (forallb _ _) eqn:E; simpl;
    [|rewrite R; split; [discriminate|];
      intros [H|(_ & _ & _ & H)]; discriminate H].
  destruct (other_entries (fs st)) eqn:O; simpl;
    [rewrite R; split; [discriminate|];
     intros [H|(_ & H & _)]; discriminate H|].
  destruct (consolidated_inside (fs st)) eqn:I; simpl;
    [rewrite R; split; [discriminate|];
     intros [H|(_ & _ & H & _)]; discriminate H|].
  split; auto.
Qed.

End Run.

(** Runs of the job on the examples. *)
Lemma nothing_to_do_changes_nothing_witness :
  consolidate_chunks_and_cleanup (no_path Z) = (None, no_path Z).
Proof.
  apply (nothing_to_do_changes_nothing Z (no_path Z)). left. reflexivity.
Defined.

Lemma chunk_directory_removed_when_empty_witness :
  root_exists (snd (consolidate_chunks_and_cleanup (two_chunks true))) = false /\
  root_exists (snd (consolidate_chunks_and_cleanup trailing_separator)) = true.
Proof.
  split.
  - apply (proj2 (chunk_directory_removed_when_empty Z (two_chunks true))
             "out_consolidated.parquet" eq_refl).
    right. repeat split. intros p c Hc _.
    destruct (decide (p = "out/chunk_1")) as [->|H1]; [reflexivity|].
    destruct (decide (p = "out/chunk_2")) as [->|H2]; [reflexivity|].
    exfalso. unfold two_chunks in Hc. cbn [chunk_folders] in Hc.
    rewrite lookup_insert_ne in Hc by congruence.
    rewrite lookup_singleton_ne in Hc by congruence. discriminate.
  - destruct (root_exists (snd (consolidate_chunks_and_cleanup trailing_separator)))
      eqn:E; [reflexivity|].
    apply (proj2 (chunk_directory_removed_when_empty Z trailing_separator)
             "out/_consolidated.parquet" eq_refl) in E.
    destruct E as [E|(_ & _ & E & _)]; discriminate E.
Defined.

End ConsolidateFacts.

(* ===================================================================== *)
(** * Properties of the query API *)
(* ===================================================================== *)

Module ApiFacts.

Import Api.

(** ** Lists, masks and the outcome monad *)

Lemma bind_Ok {A B} (m : result A) (k : A -> result B) (b : B) :
  (m ≫= k) = Ok b <-> exists a, m = Ok a /\ k a = Ok b.
Proof.
  destruct m as [a| |]; simpl; split.
  - eauto.
  - now intros (a' & [= <-] & H).
  - discriminate.
  - now intros (a' & [=] & _).
  - discriminate.
  - now intros (a' & [=] & _).
Qed.

Lemma mapM_Ok {A B} (f : A -> result B) (l : list A) (bs : list B) (d : B) :
  mapM f l = Ok bs ->
  bs = List.map (fun a => match f a with Ok b => b | _ => d end) l /\
  Forall (fun a => exists b, f a = Ok b) l.
Proof.
  revert bs. induction l as [|a l IH]; simpl; intros bs H.
  - injection H as <-. split; [reflexivity | constructor].
  - apply bind_Ok in H as (b & Hb & H).
    apply bind_Ok in H as (bs' & Hbs & [= <-]).
    destruct (IH _ Hbs) as (-> & Hall). rewrite Hb. split; [reflexivity|].
    constructor; eauto.
Qed.

Lemma mapM_total {A B} (f : A -> result B) (g : A -> B) (l : list A) :
  Forall (fun a => f a = Ok (g a)) l -> mapM f l = Ok (List.map g l).
Proof.
  induction 1 as [|a l Ha _ IH]; simpl; [reflexivity|].
  now rewrite Ha, IH.
Qed.

Lemma select_map {A} (g : A -> bool) (l : list A) :
  select l (List.map g l) = List.filter g l.
Proof.
  induction l as [|a l IH]; simpl; [reflexivity|].
  rewrite IH. reflexivity.
Qed.

Lemma select_map_cells {A} (h : A -> cell) (g : cell -> bool) (l : list A) :
  select l (List.map g (List.map h l)) = List.filter (fun a => g (h a)) l.
Proof. rewrite List.map_map. apply select_map. Qed.

Lemma mask_and_map {A} (g1 g2 : A -> bool) (l : list A) :
  mask_and (List.map g1 l) (List.map g2 l) = List.map (fun a => g1 a && g2 a) l.
Proof.
  induction l as [|a l IH]; simpl; [reflexivity|]. now rewrite IH.
Qed.

(** ** Comparisons *)

Lemma SFcompare_antisym (x y : double) :
  SFcompare y x = option_map CompOpp (SFcompare x y).
Proof.
  destruct x as [s1|s1| |s1 m1 e1], y as [s2|s2| |s2 m2 e2]; simpl;
    try destruct s1; try destruct s2; simpl; try reflexivity;
    rewrite (Z.compare_antisym e1 e2);
    destruct (e1 ?= e2); simpl; try reflexivity;
    pose proof (Pos.compare_cont_antisym m1 m2 Eq) as H; simpl in H;
    change PosDef.Pos.compare_cont with Pos.compare_cont;
    rewrite <- H; now rewrite ?CompOpp_involutive.
Qed.

Lemma holds_GE_int (z n : Z) : holds GE (Some (z ?= n)) = (n <=? z).
Proof.
  destruct (Z.compare_spec z n), (Z.leb_spec n z); simpl; try reflexivity; lia.
Qed.

Lemma holds_LE_int (z n : Z) : holds LE (Some (z ?= n)) = (z <=? n).
Proof.
  destruct (Z.compare_spec z n), (Z.leb_spec z n); simpl; try reflexivity; lia.
Qed.

Lemma holds_LE_double (x y : double) : holds LE (SFcompare x y) = SFleb x y.
Proof. unfold SFleb. now destruct (SFcompare x y) as [[]|]. Qed.

Lemma holds_GE_double (x y : double) : holds GE (SFcompare x y) = SFleb y x.
Proof.
  unfold SFleb. rewrite (SFcompare_antisym x y).
  now destruct (SFcompare x y) as [[]|].
Qed.

Lemma mapM_cells (f : cell -> result bool) (cells : list cell) (m : list bool) :
  mapM f cells = Ok m ->
  m = List.map (fun c => match mapM f [c] with Ok [b] => b | _ => false end) cells.
Proof.
  intros H. apply (mapM_Ok _ _ _ false) in H as (-> & _).
  apply List.map_ext. intros c. simpl. now destruct (f c).
Qed.

(** The mask of a comparison is computed cell by cell. *)
Lemma series_cmp_cells (op : cmpop) (s : Series) (v : any) (m : list bool) :
  series_cmp op s v = Ok m ->
  m = List.map (cell_matches op (s_dtype s) v) (values s).
Proof.
  destruct s as [dt cells], v as [v|l]; [|discriminate].
  unfold cell_matches, series_cmp, invalid_comparison, all_false. cbn [s_dtype values].
  destruct dt.
  - destruct (scalar_isna v).
    + intros [= <-]. reflexivity.
    + destruct v as [|n|x|a]; try apply mapM_cells.
      * destruct (in_int64 n); [apply mapM_cells | discriminate].
      * destruct op; try discriminate. intros [= <-]. reflexivity.
  - destruct (scalar_isna v).
    + intros [= <-]. reflexivity.
    + destruct v as [|n|x|a]; try apply mapM_cells.
      * destruct (in_int64 n); [apply mapM_cells | discriminate].
      * destruct op; try discriminate. intros [= <-]. reflexivity.
  - destruct (scalar_isna v).
    + intros [= <-]. reflexivity.
    + apply mapM_cells.
  - destruct op; try discriminate. intros [= <-]. reflexivity.
  - destruct v as [|n|x|a]; try discriminate.
    + destruct op; try discriminate. intros [= <-]. reflexivity.
    + destruct (is_nan x); [discriminate|].
      destruct op; try discriminate. intros [= <-]. reflexivity.
Qed.

(** Unfoldings of [apply_filter] on [gte], [lte] and [between]. *)
Lemma apply_filter_cmp (opname : string) (op : cmpop) (df : DataFrame)
  (column : string) (v v2 : any) :
  (opname, op) = ("gte", GE) \/ (opname, op) = ("lte", LE) ->
  has_column df column = true ->
  Main.apply_filter df {| column := column; operator := opname; value := v;
                          value2 := v2; limit := None |} =
  try_except (m ← series_cmp op (getitem df column) v; Ok (getmask df m))
             (fun e => HTTPException 400 (Fmt "Erro no filtro: " e)).
Proof.
  intros Hop Hcol. unfold Main.apply_filter. cbn [Api.column operator value limit].
  rewrite Hcol. cbn [negb].
  destruct Hop as [[= -> ->]|[= -> ->]].
  - change (lower "gte") with "gte". cbn [String.eqb Ascii.eqb Bool.eqb].
    now destruct (series_cmp GE (getitem df column) v).
  - change (lower "lte") with "lte". cbn [String.eqb Ascii.eqb Bool.eqb].
    now destruct (series_cmp LE (getitem df column) v).
Qed.

Lemma apply_filter_between (df : DataFrame) (column : string) (v v2 : any)
  (lim : option Z) :
  has_column df column = true ->
  Main.apply_filter df {| column := column; operator := "between"; value := v;
                          value2 := v2; limit := lim |} =
  try_except
    (filtered_df ←
       match v2 with
       | One PNone => Raise (ValueError "Operação 'between' requer value2")
       | _ => m1 ← series_cmp GE (getitem df column) v;
              m2 ← series_cmp LE (getitem df column) v2;
              Ok (getmask df (mask_and m1 m2))
       end;
     Ok (if Main.truthy lim then df_head (default 0 lim) filtered_df
         else filtered_df))
    (fun e => HTTPException 400 (Fmt "Erro no filtro: " e)).
Proof.
  intros Hcol. unfold Main.apply_filter.
  cbn [Api.column operator value value2 limit].
  rewrite Hcol. cbn [negb].
  change (lower "between") with "between".
  cbn [String.eqb Ascii.eqb Bool.eqb]. reflexivity.
Qed.

(** ** [between] *)

Lemma SFcompare_nan_r (x y : double) : is_nan y = true -> SFcompare x y = None.
Proof. destruct y; try discriminate. now destruct x. Qed.

Lemma num_cmp_total (op : cmpop) (v : scalar) (c : cell) :
  numeric_cell c -> numeric_bound v -> num_cmp op c v = Ok (num_test op v c).
Proof.
  unfold num_test. destruct c, v; simpl; intros Hc Hv; try contradiction;
    reflexivity.
Qed.

Lemma num_test_nan (op : cmpop) (v : scalar) (c : cell) :
  numeric_cell c -> scalar_isna v = true -> num_test op v c = false.
Proof.
  unfold num_test. destruct c, v; simpl; intros Hc Hv;
    try contradiction; try discriminate; try reflexivity;
    rewrite (SFcompare_nan_r _ _ Hv); now destruct op.
Qed.

(** On a numeric column, a comparison with a numeric bound answers for
    every cell. *)
Lemma series_cmp_numeric (op : cmpop) (s : Series) (v : scalar) :
  s_dtype s = int64 \/ s_dtype s = float64 ->
  Forall numeric_cell (values s) ->
  numeric_bound v ->
  series_cmp op s (One v) = Ok (List.map (num_test op v) (values s)).
Proof.
  intros Hdt Hcells Hv. unfold series_cmp, all_false.
  assert (Hmap : mapM (fun c => num_cmp op c v) (values s)
                 = Ok (List.map (num_test op v) (values s))).
  { apply mapM_total. eapply Forall_impl; [exact Hcells|].
    intros c Hc. now apply num_cmp_total. }
  assert (Hnan : scalar_isna v = true ->
                 List.map (fun _ : cell => false) (values s)
                 = List.map (num_test op v) (values s)).
  { intros Hna. apply List.map_ext_in. intros c Hc. symmetry.
    apply num_test_nan; [|assumption].
    rewrite List.Forall_forall in Hcells. now apply Hcells. }
  destruct Hdt as [-> | ->]; destruct (scalar_isna v) eqn:Hna;
    try (now rewrite Hnan);
    destruct v as [|n|x|a]; try contradiction; try exact Hmap;
    simpl in Hv; now rewrite Hv.
Qed.

Lemma inclusive_tests (lo hi : scalar) (c : cell) :
  numeric_cell c -> numeric_bound lo -> numeric_bound hi ->
  num_test GE lo c && num_test LE hi c = inclusive lo hi c.
Proof.
  unfold num_test, inclusive.
  destruct c, lo, hi; intros Hc Hlo Hhi; try contradiction;
    cbn -[holds SFleb Z.leb lit SFcompare];
    rewrite ?holds_GE_int, ?holds_LE_int, ?holds_GE_double, ?holds_LE_double;
    reflexivity.
Qed.

Lemma obj_cmp_total (op : cmpop) (v : string) (c : cell) :
  text_cell c -> obj_cmp op c (PStr v) = Ok (text_test op v c).
Proof. unfold text_test. now destruct c. Qed.

(** On a text column, a comparison with a text answers for every cell. *)
Lemma series_cmp_text (op : cmpop) (s : Series) (v : string) :
  s_dtype s = object ->
  Forall text_cell (values s) ->
  series_cmp op s (One (PStr v)) = Ok (List.map (text_test op v) (values s)).
Proof.
  intros Hdt Hcells. unfold series_cmp. rewrite Hdt. cbn [scalar_isna].
  apply mapM_total. eapply Forall_impl; [exact Hcells|].
  intros c Hc. now apply obj_cmp_total.
Qed.

Lemma inclusive_text_tests (lo hi : string) (c : cell) :
  text_test GE lo c && text_test LE hi c = inclusive_text lo hi c.
Proof.
  unfold text_test, inclusive_text, String.leb.
  destruct c as [| | |a|]; try reflexivity. cbn [obj_cmp].
  rewrite (String.compare_antisym lo a).
  now destruct (String.compare a lo), (String.compare a hi).
Qed.

Lemma getitem_values (df : DataFrame) (column : string) :
  values (getitem df column) = List.map (cell_at df column) (rows df).
Proof. reflexivity. Qed.

(** X28. On a numeric column with numeric bounds, and on a text column
    with text bounds, [between(a, b)] returns exactly the rows with
    a <= value <= b, both ends included, in their order, where an integer
    and a double are compared as doubles; on any column, whenever
    [gte(a)] and [lte(b)] both answer, [between(a, b)] answers with the
    rows that are in both answers; and [between] without [value2] fails,
    with the HTTP 400 error that says that [between] requires [value2]. *)
Theorem between_contract (df : DataFrame) (column : string) (a b : any) :
  has_column df column = true ->
  (forall lo hi,
      a = One lo -> b = One hi -> numeric_column df column ->
      numeric_bound lo -> numeric_bound hi ->
      Main.apply_filter df (Sample.between column a b) =
      Ok {| columns := columns df;
            rows := List.filter (fun r => inclusive lo hi (cell_at df column r))
                                (rows df) |}) /\
  (forall lo hi,
      a = One (PStr lo) -> b = One (PStr hi) -> text_column df column ->
      Main.apply_filter df (Sample.between column a b) =
      Ok {| columns := columns df;
            rows := List.filter
                      (fun r => inclusive_text lo hi (cell_at df column r))
                      (rows df) |}) /\
  (forall d1 d2,
      b <> One PNone ->
      Main.apply_filter df (Sample.request column "gte" a None) = Ok d1 ->
      Main.apply_filter df (Sample.request column "lte" b None) = Ok d2 ->
      exists d,
        Main.apply_filter df (Sample.between column a b) = Ok d /\
        (forall r, In r (rows d) <-> In r (rows d1) /\ In r (rows d2)) /\
        exists f1 f2,
          rows d1 = List.filter f1 (rows df) /\
          rows d2 = List.filter f2 (rows df) /\
          rows d = List.filter (fun r => f1 r && f2 r) (rows df)) /\
  (forall lim,
      Main.apply_filter df {| Api.column := column; operator := "between";
                              value := a; value2 := One PNone; limit := lim |} =
      Raise (HTTPException 400
               (Fmt "Erro no filtro: "
                    (ValueError "Operação 'between' requer value2")))).
Proof.
  intros Hcol. split; [|split; [|split]].
  - intros lo hi -> -> (_ & Hdt & Hcells) Hlo Hhi.
    unfold Sample.between. rewrite apply_filter_between by assumption.
    assert (Hnum : Forall numeric_cell (values (getitem df column))).
    { rewrite getitem_values, List.Forall_map. exact Hcells. }
    rewrite !series_cmp_numeric by assumption.
    assert (Hrows :
      select (rows df)
        (mask_and (List.map (num_test GE lo) (values (getitem df column)))
                  (List.map (num_test LE hi) (values (getitem df column))))
      = List.filter (fun r => inclusive lo hi (cell_at df column r)) (rows df)).
    { rewrite getitem_values, !List.map_map, mask_and_map, select_map.
      apply List.filter_ext_in. intros r Hr.
      apply inclusive_tests; try assumption.
      rewrite List.Forall_forall in Hcells. now apply Hcells. }
    destruct hi; try contradiction;
      cbn [mbind result_bind try_except Main.truthy];
      unfold getmask; now rewrite Hrows.
  - intros lo hi -> -> (_ & Hdt & Hcells).
    unfold Sample.between. rewrite apply_filter_between by assumption.
    assert (Htext : Forall text_cell (values (getitem df column))).
    { rewrite getitem_values, List.Forall_map. exact Hcells. }
    rewrite !series_cmp_text by assumption.
    cbn [mbind result_bind try_except Main.truthy]. unfold getmask. f_equal.
    f_equal. rewrite getitem_values, !List.map_map, mask_and_map, select_map.
    apply List.filter_ext. intros r. apply inclusive_text_tests.
  - intros d1 d2 Hb H1 H2. unfold Sample.request in H1, H2.
    rewrite (apply_filter_cmp "gte" GE) in H1 by auto.
    rewrite (apply_filter_cmp "lte" LE) in H2 by auto.
    destruct (series_cmp GE (getitem df column) a) as [m1| |] eqn:E1;
      try discriminate.
    destruct (series_cmp LE (getitem df column) b) as [m2| |] eqn:E2;
      try discriminate.
    simpl in H1, H2. injection H1 as <-. injection H2 as <-.
    pose proof (series_cmp_cells _ _ _ _ E1) as C1.
    pose proof (series_cmp_cells _ _ _ _ E2) as C2.
    rewrite getitem_values in C1, C2.
    set (f1 := fun r => cell_matches GE (s_dtype (getitem df column)) a
                          (cell_at df column r)).
    set (f2 := fun r => cell_matches LE (s_dtype (getitem df column)) b
                          (cell_at df column r)).
    assert (R1 : select (rows df) m1 = List.filter f1 (rows df)).
    { subst m1. apply select_map_cells. }
    assert (R2 : select (rows df) m2 = List.filter f2 (rows df)).
    { subst m2. apply select_map_cells. }
    assert (R : select (rows df) (mask_and m1 m2)
                = List.filter (fun r => f1 r && f2 r) (rows df)).
    { subst m1 m2. rewrite !List.map_map, mask_and_map. apply select_map. }
    exists (getmask df (mask_and m1 m2)). split; [|split].
    + unfold Sample.between. rewrite apply_filter_between by assumption.
      rewrite E1, E2. now destruct b as [[]|].
    + intros r. cbn [rows getmask]. rewrite R, R1, R2, !List.filter_In.
      rewrite andb_true_iff. tauto.
    + exists f1, f2. cbn [rows getmask]. auto.
  - intros lim. now rewrite apply_filter_between.
Qed.

(** The fares between 10 and 15 are those of trips 0 and 2. *)
Lemma between_contract_witness :
  Main.apply_filter Sample.trips
    (Sample.between "fare_amount" (One (PInt 10)) (One (PInt 15)))
  = Ok (Sample.pick [0; 2]).
Proof.
  destruct (between_contract Sample.trips "fare_amount"
              (One (PInt 10)) (One (PInt 15)) eq_refl) as (H & _ & _).
  rewrite (H (PInt 10) (PInt 15) eq_refl eq_refl).
  - reflexivity.
  - split; [reflexivity | split; [right; reflexivity | repeat constructor]].
  - reflexivity.
  - reflexivity.
Defined.

(** ** The value set of [in] *)

Lemma isin_elem_no_raise (c : cell) (v : scalar) (e : exn) :
  isin_elem c v <> Raise e.
Proof.
  unfold isin_elem. destruct (scalar_isna v); [discriminate|].
  destruct c, v; try discriminate;
    match goal with |- context [if ?b then _ else _] => now destruct b end.
Qed.

Lemma isin_cell_cons (v : scalar) (l : list scalar) (c : cell) :
  isin_cell (v :: l) c = (b ← isin_elem c v; r ← isin_cell l c; Ok (b || r)).
Proof.
  unfold isin_cell. simpl. destruct (isin_elem c v); try reflexivity.
  now destruct (mapM (isin_elem c) l).
Qed.

Lemma isin_cell_no_raise (l : list scalar) (c : cell) (e : exn) :
  isin_cell l c <> Raise e.
Proof.
  induction l as [|v l IH]; [discriminate|].
  rewrite isin_cell_cons.
  destruct (isin_elem c v) eqn:E; simpl; try discriminate.
  - destruct (isin_cell l c); simpl; congruence.
  - now apply isin_elem_no_raise in E.
Qed.

Lemma isin_cell_perm (l l' : list scalar) (c : cell) :
  l ≡ₚ l' -> isin_cell l c = isin_cell l' c.
Proof.
  induction 1 as [|v l l' _ IH|v1 v2 l|l1 l2 l3 _ IH1 _ IH2].
  - reflexivity.
  - now rewrite !isin_cell_cons, IH.
  - rewrite !isin_cell_cons.
    destruct (isin_elem c v1) as [b1|e1|] eqn:E1;
      destruct (isin_elem c v2) as [b2|e2|] eqn:E2; simpl;
      try (now apply isin_elem_no_raise in E1);
      try (now apply isin_elem_no_raise in E2);
      destruct (isin_cell l c) as [r|e|] eqn:E; simpl;
      try (now apply isin_cell_no_raise in E); try reflexivity.
    now destruct b1, b2.
  - congruence.
Qed.

(** The mask of [isin] does not depend on the order of the values. *)
Lemma series_isin_perm (s : Series) (l l' : list scalar) :
  l ≡ₚ l' -> series_isin s (Many l) = series_isin s (Many l').
Proof.
  intros H. simpl. induction (values s) as [|c cells IH]; simpl; [reflexivity|].
  now rewrite (isin_cell_perm l l' c H), IH.
Qed.

(** ** The loaders *)

Lemma cached_hit (h : host) (p : process) (df : DataFrame) :
  DATA_CACHE p !! "main_df" = Some df ->
  Main.load_parquet_data h p = (Ok df, p).
Proof. intros H. unfold Main.load_parquet_data. now rewrite H. Qed.

Lemma cached_after (h : host) (p p' : process) (df : DataFrame) :
  Main.load_parquet_data h p = (Ok df, p') ->
  DATA_CACHE p' !! "main_df" = Some df.
Proof.
  unfold Main.load_parquet_data.
  destruct (DATA_CACHE p !! "main_df") as [d|] eqn:E.
  - now intros [= <- <-].
  - destruct (Main.find_data h) as [[d|] tr]; intros [= <- <-]. simpl.
    apply lookup_insert_eq.
Qed.

Lemma calls_cached (hosts : list host) (p : process) (df : DataFrame) :
  DATA_CACHE p !! "main_df" = Some df ->
  forall k r q, calls Main.load_parquet_data hosts p !! k = Some (r, q) ->
                r = Ok df /\ q = p.
Proof.
  intros Hc. induction hosts as [|h hosts IH]; intros k r q; simpl.
  - now rewrite lookup_nil.
  - rewrite (cached_hit h p df Hc). destruct k as [|k]; simpl.
    + now intros [= <- <-].
    + apply IH.
Qed.

(** X8. The loader of line 39: in any sequence of calls, each on the host as
    it is then, once a call has returned a frame every later call returns
    that frame and leaves the process, its trace of file-system calls
    included, as that call left it. *)
Lemma cached_loader_reads_once (hosts : list host) (p : process) (i j : nat)
  (df : DataFrame) (pi pj : process) (rj : result DataFrame) :
  calls Main.load_parquet_data hosts p !! i = Some (Ok df, pi) ->
  (i < j)%nat ->
  calls Main.load_parquet_data hosts p !! j = Some (rj, pj) ->
  rj = Ok df /\ pj = pi.
Proof.
  revert p i j. induction hosts as [|h hosts IH]; intros p i j; simpl.
  - now rewrite lookup_nil.
  - destruct i as [|i], j as [|j]; simpl; try lia.
    + intros Hi _ Hj. injection Hi as Hi. rewrite Hi in Hj. simpl in Hj.
      eapply calls_cached; [|exact Hj]. now apply (cached_after h p).
    + intros Hi Hlt Hj. eapply (IH _ i j); [exact Hi | lia | exact Hj].
Qed.

(** X9. The loader of line 427: every call that returns a frame has read it
    from storage, whatever the process has loaded before. *)
Lemma tail_loader_always_reads (h : host) (p p' : process) (df : DataFrame) :
  Tail.load_parquet_data h p = (Ok df, p') ->
  exists path, reads p' = reads p ++ [path] /\ DATA_CACHE p' = DATA_CACHE p.
Proof.
  unfold Tail.load_parquet_data, reads.
  destruct (isdir h (PARQUET_PATH h)).
  - intros [= _ <-]. exists (PARQUET_PATH h). simpl. now rewrite omap_app.
  - destruct (glob_glob h _) as [|first rest]; intros [= H <-]; try discriminate.
    exists first. simpl. now rewrite omap_app.
Qed.

(** ** The result cap *)

(** [apply_filter] computes the matching rows and then caps them. *)
Lemma apply_filter_cap (df : DataFrame) (filter_req : FilterRequest) (d : DataFrame) :
  Main.apply_filter df filter_req = Ok d ->
  exists matches,
    Main.apply_filter df (Sample.uncapped filter_req) = Ok matches /\
    d = if Main.truthy (limit filter_req)
        then df_head (default 0 (limit filter_req)) matches
        else matches.
Proof.
  unfold Main.apply_filter, Sample.uncapped.
  cbn [Api.column operator value value2 limit Main.truthy].
  destruct (negb (has_column df (Api.column filter_req))); [discriminate|].
  match goal with
  | |- context [mbind _ ?m] => destruct m as [matches| |]
  end; simpl; try discriminate.
  intros [= <-]. eauto.
Qed.

(** X10. With a positive [limit], the rows returned are the first [limit]
    matching rows, in the order of the frame. *)
Lemma returned_rows_are_a_prefix (df : DataFrame) (filter_req : FilterRequest)
  (d : DataFrame) (n : Z) :
  Main.apply_filter df filter_req = Ok d ->
  limit filter_req = Some n -> 0 < n ->
  exists matches,
    Main.apply_filter df (Sample.uncapped filter_req) = Ok matches /\
    rows d = firstn (Z.to_nat n) (rows matches) /\
    len d <= n /\ len d <= len matches.
Proof.
  intros H Hn Hpos. apply apply_filter_cap in H as (matches & Hm & ->).
  exists matches. rewrite Hn. unfold Main.truthy.
  destruct (n =? 0) eqn:E; [apply Z.eqb_eq in E; lia|].
  cbn [negb default from_option id]. unfold len, df_head. cbn [rows].
  destruct (Z.leb_spec 0 n); [|lia].
  split; [assumption | split; [reflexivity|]].
  rewrite List.length_firstn. lia.
Qed.

(** ** More on the loaders and on [apply_filter] *)

Lemma cached_loader_reads_once_witness :
  exists rj pj,
    calls Main.load_parquet_data [Sample.app; Sample.app] Sample.fresh !! 1%nat
      = Some (rj, pj) /\
    rj = Ok Sample.trips /\
    pj = snd (Main.load_parquet_data Sample.app Sample.fresh).
Proof.
  eexists _, _. split; [vm_compute; reflexivity|].
  apply (cached_loader_reads_once [Sample.app; Sample.app] Sample.fresh 0 1).
  - vm_compute. reflexivity.
  - lia.
  - vm_compute. reflexivity.
Defined.

Lemma tail_loader_always_reads_witness :
  exists path,
    reads (snd (Tail.load_parquet_data Sample.app Sample.fresh))
      = reads Sample.fresh ++ [path] /\
    DATA_CACHE (snd (Tail.load_parquet_data Sample.app Sample.fresh))
      = DATA_CACHE Sample.fresh.
Proof.
  apply (tail_loader_always_reads Sample.app Sample.fresh _ Sample.trips).
  vm_compute. reflexivity.
Defined.

Lemma returned_rows_are_a_prefix_witness :
  exists matches,
    Main.apply_filter Sample.trips
      (Sample.uncapped (Sample.request "passenger_count" "gte" (One (PInt 2)) (Some 2)))
      = Ok matches /\
    rows (Sample.pick [1; 2]) = firstn (Z.to_nat 2) (rows matches) /\
    len (Sample.pick [1; 2]) <= 2 /\ len (Sample.pick [1; 2]) <= len matches.
Proof.
  apply (returned_rows_are_a_prefix Sample.trips
           (Sample.request "passenger_count" "gte" (One (PInt 2)) (Some 2))).
  - vm_compute. reflexivity.
  - reflexivity.
  - lia.
Defined.

(** X11. A load that fails answers HTTP 500 and stores nothing in
    [DATA_CACHE]: the next call searches storage again. *)
Theorem failed_load_caches_nothing (h : host) (p p' : process) (e : exn) :
  Main.load_parquet_data h p = (Raise e, p') ->
  DATA_CACHE p' = DATA_CACHE p /\
  DATA_CACHE p' !! "main_df" = None /\
  e = HTTPException 500
        (Fmt "Erro ao carregar dados: "
             (FileNotFoundError "Nenhum arquivo Parquet válido encontrado")).
Proof.
  unfold Main.load_parquet_data.
  destruct (DATA_CACHE p !! "main_df") as [d|] eqn:E; [discriminate|].
  destruct (Main.find_data h) as [[d|] tr]; [discriminate|].
  intros [= <- <-]. auto.
Qed.

Lemma failed_load_caches_nothing_witness :
  DATA_CACHE (snd (Main.load_parquet_data Sample.bare Sample.fresh)) !! "main_df"
  = None.
Proof.
  refine (proj1 (proj2 (failed_load_caches_nothing Sample.bare Sample.fresh _ _ _))).
  vm_compute. reflexivity.
Defined.

(** X12. A column that the frame does not have: [apply_filter] answers
    HTTP 400, naming the column, whatever the operator and the value. *)
Theorem unknown_column_is_a_bad_request (df : DataFrame) (filter_req : FilterRequest) :
  has_column df (column filter_req) = false ->
  Main.apply_filter df filter_req =
  Raise (HTTPException 400
           (Fmt "Erro no filtro: "
                (ValueError ("Coluna '" +:+ column filter_req +:+ "' não existe")))).
Proof. intros H. unfold Main.apply_filter. now rewrite H. Qed.

Lemma unknown_column_is_a_bad_request_witness :
  Main.apply_filter Sample.trips
    (Sample.request "tip_amount" "eq" (One (PInt 1)) None) =
  Raise (HTTPException 400
           (Fmt "Erro no filtro: " (ValueError "Coluna 'tip_amount' não existe"))).
Proof.
  apply (unknown_column_is_a_bad_request Sample.trips
           (Sample.request "tip_amount" "eq" (One (PInt 1)) None)).
  reflexivity.
Defined.

Lemma eqb_not_in (a b : string) (l : list string) :
  a ∉ b :: l -> String.eqb a b = false /\ a ∉ l.
Proof.
  intros H. split.
  - apply String.eqb_neq. intros ->. apply H. left.
  - intros Hl. apply H. now right.
Qed.

(** X13. An operator that, in lower case, is none of the eight known ones:
    [apply_filter] answers HTTP 400, naming the operator in lower case. *)
Theorem unknown_operator_is_a_bad_request (df : DataFrame) (filter_req : FilterRequest) :
  has_column df (column filter_req) = true ->
  lower (operator filter_req) ∉ Sample.operators ->
  all_chars is_ascii (lower (operator filter_req)) = true ->
  Main.apply_filter df filter_req =
  Raise (HTTPException 400
           (Fmt "Erro no filtro: "
                (ValueError ("Operador '" +:+ lower (operator filter_req)
                             +:+ "' não suportado")))).
Proof.
  intros Hcol Hop Hascii. unfold Main.apply_filter, Sample.operators in *.
  rewrite Hcol. cbn [negb].
  repeat (apply eqb_not_in in Hop as (-> & Hop)).
  now rewrite Hascii.
Qed.

Lemma unknown_operator_is_a_bad_request_witness :
  Main.apply_filter Sample.trips
    (Sample.request "passenger_count" "NE" (One (PInt 1)) None) =
  Raise (HTTPException 400
           (Fmt "Erro no filtro: " (ValueError "Operador 'ne' não suportado"))).
Proof.
  apply (unknown_operator_is_a_bad_request Sample.trips
           (Sample.request "passenger_count" "NE" (One (PInt 1)) None)).
  - reflexivity.
  - vm_compute. intros H. repeat (apply elem_of_cons in H as [H|H];
      [discriminate H|]). now apply elem_of_nil in H.
  - reflexivity.
Defined.

Lemma lower_char_idem (c : ascii) : lower_char (lower_char c) = lower_char c.
Proof. destruct c as [[] [] [] [] [] [] [] []]; reflexivity. Qed.

Lemma lower_idem (a : string) : lower (lower a) = lower a.
Proof.
  induction a as [|c a IH]; simpl; [reflexivity|].
  now rewrite lower_char_idem, IH.
Qed.

(** X14. The operator is read without regard to case: a request and the
    same request with its operator in lower case get the same answer. *)
Theorem operator_case_is_ignored (df : DataFrame) (filter_req : FilterRequest) :
  Main.apply_filter df filter_req =
  Main.apply_filter df
    (Sample.with_operator filter_req (lower (operator filter_req))).
Proof.
  unfold Main.apply_filter, Sample.with_operator.
  cbn [Api.column operator value value2 limit].
  now rewrite lower_idem.
Qed.

(** ** What a filter returns *)

Lemma try_except_Ok {A} (body : result A) (handler : exn -> exn) (a : A) :
  try_except body handler = Ok a <-> body = Ok a.
Proof. destruct body; simpl; split; congruence. Qed.

Lemma try_except_Raise {A} (body : result A) (handler : exn -> exn) (e : exn) :
  try_except body handler = Raise e <->
  exists cause, body = Raise cause /\ e = handler cause.
Proof.
  destruct body as [a|e0|]; simpl; split;
    try discriminate; try (now intros (c & [=] & _)).
  - intros [= <-]. eauto.
  - now intros (c & [= <-] & ->).
Qed.

Lemma select_sublist {A} (l : list A) (m : list bool) : sublist (select l m) l.
Proof.
  revert m. induction l as [|a l IH]; intros [|b m]; simpl;
    try apply sublist_nil_l.
  destruct b; [apply sublist_skip | apply sublist_cons]; apply IH.
Qed.

Lemma df_head_sublist (n : Z) (df : DataFrame) :
  columns (df_head n df) = columns df /\ sublist (rows (df_head n df)) (rows df).
Proof.
  split; [reflexivity|]. unfold df_head. cbn [rows].
  destruct (0 <=? n); apply sublist_take.
Qed.

(** Without a cap, what [apply_filter] returns is the frame under a mask. *)
Lemma apply_filter_mask (df : DataFrame) (filter_req : FilterRequest) (d : DataFrame) :
  limit filter_req = None ->
  Main.apply_filter df filter_req = Ok d ->
  exists m, d = getmask df m.
Proof.
  intros Hlim. unfold Main.apply_filter. rewrite Hlim. cbn [Main.truthy].
  destruct (negb (has_column df (column filter_req))); [discriminate|].
  rewrite try_except_Ok, bind_Ok. intros (x & H & [= <-]).
  repeat match type of H with
  | (if ?b then _ else _) = _ => destruct b
  | (match ?v with One _ => _ | Many _ => _ end) = _ => destruct v as [[]|]
  | (_ ≫= _) = Ok _ => apply bind_Ok in H as (? & ? & H)
  end; try discriminate;
  try (injection H as <-; eauto).
Qed.

Lemma apply_filter_sublist (df : DataFrame) (filter_req : FilterRequest) (d : DataFrame) :
  Main.apply_filter df filter_req = Ok d ->
  columns d = columns df /\ sublist (rows d) (rows df).
Proof.
  intros H. apply apply_filter_cap in H as (matches & Hm & ->).
  apply apply_filter_mask in Hm as (m & ->); [|reflexivity].
  destruct (Main.truthy (limit filter_req)).
  - destruct (df_head_sublist (default 0 (limit filter_req)) (getmask df m))
      as (Hc & Hr).
    split; [exact Hc|]. etransitivity; [exact Hr|]. apply select_sublist.
  - split; [reflexivity | apply select_sublist].
Qed.

(** X15. What [apply_filter] returns is a part of the frame it was given:
    the same columns, and rows of that frame, each as it was, in the order
    they had; so never more rows than the frame has. *)
Theorem filtered_frame_is_a_part_of_the_frame
  (df : DataFrame) (filter_req : FilterRequest) (d : DataFrame) :
  Main.apply_filter df filter_req = Ok d ->
  columns d = columns df /\
  sublist (rows d) (rows df) /\
  (forall r, r ∈ rows d -> r ∈ rows df) /\
  len d <= len df.
Proof.
  intros H. apply apply_filter_sublist in H as (Hc & Hr).
  repeat split; try assumption.
  - intros r Hin. eapply elem_of_sublist; eassumption.
  - unfold len. apply sublist_length in Hr. lia.
Qed.

Lemma filtered_frame_is_a_part_of_the_frame_witness :
  sublist (rows (Sample.pick [0; 2])) (rows Sample.trips).
Proof.
  refine (proj1 (proj2 (filtered_frame_is_a_part_of_the_frame Sample.trips
            (Sample.between "fare_amount" (One (PInt 10)) (One (PInt 15)))
            (Sample.pick [0; 2]) _))).
  vm_compute. reflexivity.
Defined.

(** X16. A [limit] of 0, like no [limit], caps nothing: the answer is the
    one of the request without a cap, every matching row. *)
Theorem zero_limit_is_no_limit (df : DataFrame) (filter_req : FilterRequest) :
  limit filter_req = Some 0 \/ limit filter_req = None ->
  Main.apply_filter df filter_req =
  Main.apply_filter df (Sample.uncapped filter_req).
Proof.
  intros H. unfold Main.apply_filter, Sample.uncapped.
  cbn [Api.column operator value value2 limit].
  now destruct H as [-> | ->].
Qed.

Lemma zero_limit_is_no_limit_witness :
  Main.apply_filter Sample.trips
    (Sample.request "passenger_count" "gte" (One (PInt 2)) (Some 0))
  = Ok (Sample.pick [1; 2; 3]).
Proof.
  rewrite (zero_limit_is_no_limit Sample.trips
             (Sample.request "passenger_count" "gte" (One (PInt 2)) (Some 0)));
    [|left; reflexivity].
  vm_compute. reflexivity.
Defined.

(** X17. The answer to [in] with a list of values does not depend on the
    order of the list. *)
Theorem in_ignores_the_order_of_its_values
  (df : DataFrame) (column : string) (l l' : list scalar) (v2 : any)
  (lim : option Z) :
  l ≡ₚ l' ->
  Main.apply_filter df {| Api.column := column; operator := "in";
                          value := Many l; value2 := v2; limit := lim |} =
  Main.apply_filter df {| Api.column := column; operator := "in";
                          value := Many l'; value2 := v2; limit := lim |}.
Proof.
  intros H. unfold Main.apply_filter.
  cbn [Api.column operator value value2 limit].
  destruct (negb (has_column df column)); [reflexivity|].
  change (lower "in") with "in". cbn [String.eqb Ascii.eqb Bool.eqb].
  cbn [mbind result_bind].
  now rewrite (series_isin_perm (getitem df column) l l' H).
Qed.

Lemma in_ignores_the_order_of_its_values_witness :
  Main.apply_filter Sample.trips
    (Sample.request "passenger_count" "in" (Many [PInt 3; PInt 1]) None)
  = Main.apply_filter Sample.trips
      (Sample.request "passenger_count" "in" (Many [PInt 1; PInt 3]) None).
Proof.
  apply (in_ignores_the_order_of_its_values Sample.trips "passenger_count"
           [PInt 3; PInt 1] [PInt 1; PInt 3]).
  apply Permutation_swap.
Defined.

(** ** The handlers *)

Section Handlers.

Variable load : host -> process -> result DataFrame * process.

(** X18. [POST /filter] answers every failure with HTTP 400 and the
    prefix "Erro no filtro: " before its cause.  The cause is the error
    of the loader, an HTTP 500 from the loaders of this file, or the error
    of [apply_filter], which is itself an HTTP 400 with that prefix: the
    detail of a refused filter carries the prefix twice. *)
Theorem post_filter_fails_with_400
  (filter_req : FilterRequest) (h : host) (p p' : process) (e : exn) :
  Main.filter_data load filter_req h p = (Raise e, p') ->
  exists cause,
    e = HTTPException 400 (Fmt "Erro no filtro: " cause) /\
    (load h p = (Raise cause, p') \/
     exists df inner,
       load h p = (Ok df, p') /\
       Main.apply_filter df filter_req = Raise cause /\
       cause = HTTPException 400 (Fmt "Erro no filtro: " inner)).
Proof.
  unfold Main.filter_data. destruct (load h p) as [loaded p1].
  intros [= H <-]. apply try_except_Raise in H as (cause & Hc & ->).
  exists cause. split; [reflexivity|].
  destruct loaded as [df|e0|]; simpl in Hc; try discriminate.
  - right. destruct (Main.apply_filter df filter_req) as [d|e1|] eqn:E;
      simpl in Hc; try discriminate.
    injection Hc as <-. pose proof E as E'. unfold Main.apply_filter in E'.
    apply try_except_Raise in E' as (inner & _ & He1). eauto.
  - left. congruence.
Qed.

(** X19. In an answer of [POST /filter], [filtered_count] is the number
    of rows in [data], [total_records] is the size of the loaded frame, and
    [filtered_count] never exceeds [total_records]. *)
Theorem post_filter_counts
  (filter_req : FilterRequest) (h : host) (p p' : process)
  (resp : Main.FilterResponse) :
  Main.filter_data load filter_req h p = (Ok resp, p') ->
  exists df,
    load h p = (Ok df, p') /\
    Main.total_records resp = len df /\
    Main.filtered_count resp = Z.of_nat (length (Main.data resp)) /\
    Main.filtered_count resp <= Main.total_records resp.
Proof.
  unfold Main.filter_data. destruct (load h p) as [loaded p1].
  intros [= H <-]. apply try_except_Ok in H.
  apply bind_Ok in H as (df & -> & H).
  apply bind_Ok in H as (d & Hd & [= <-]).
  exists df. cbn. repeat split.
  - unfold len. now rewrite List.length_map.
  - apply apply_filter_sublist in Hd as (_ & Hr).
    apply sublist_length in Hr. unfold len. lia.
Qed.

(** X20. [GET /preview] with a limit of at least 1 returns the first
    [limit] rows of the loaded frame, all of them when the frame is
    shorter: [preview_count] is the smaller of [limit] and
    [total_records]. *)
Theorem preview_returns_the_first_rows
  (n : Z) (h : host) (p p' : process) (resp : Main.Preview.Response) :
  Main.preview load n h p = (Ok resp, p') ->
  1 <= n ->
  exists df,
    load h p = (Ok df, p') /\
    Main.Preview.total_records resp = len df /\
    Main.Preview.preview_count resp = Z.min n (len df) /\
    Main.Preview.data resp
      = List.map (Main.row_dict df) (firstn (Z.to_nat n) (rows df)) /\
    Main.Preview.columns resp = List.map fst (columns df).
Proof.
  unfold Main.preview. destruct (load h p) as [loaded p1].
  intros [= H <-] Hn. apply try_except_Ok in H.
  apply bind_Ok in H as (df & -> & [= <-]).
  exists df. cbn. unfold df_head. cbn [rows].
  destruct (Z.leb_spec 0 n); [|lia].
  repeat split. rewrite List.length_map, List.length_firstn. unfold len. lia.
Qed.

(** X21. [GET /unique/{column}] for a column that the frame does not have
    answers HTTP 500: the 404 raised for the missing column is caught by
    the handler's own [except] and wrapped. *)
Theorem unique_of_a_missing_column_is_a_500
  (value_counts : Series -> list (cell * Z))
  (column : string) (n : Z) (h : host) (p p' : process) (df : DataFrame) :
  load h p = (Ok df, p') ->
  has_column df column = false ->
  Main.get_unique_values load value_counts column n h p =
  (Raise (HTTPException 500
            (Fmt "Erro ao obter valores únicos: "
                 (HTTPException 404
                    (Text ("Coluna '" +:+ column +:+ "' não encontrada"))))),
   p').
Proof.
  intros Hload Hcol. unfold Main.get_unique_values. rewrite Hload. cbn.
  now rewrite Hcol.
Qed.

(** X22. [GET /filter] refuses [contains] on every column that is not of
    dtype [object], with HTTP 400; a categorical column of texts
    included. *)
Theorem get_filter_refuses_contains_off_text
  (column value : string) (n : Z) (h : host) (p p' : process) (df : DataFrame) :
  load h p = (Ok df, p') ->
  has_column df column = true ->
  dtype_of df column <> object ->
  Tail.filter_data load column "contains" value n h p =
  (Raise (HTTPException 400
            (Text "Operador 'contains' só funciona com colunas de texto")),
   p').
Proof.
  intros Hload Hcol Hdt. unfold Tail.filter_data. rewrite Hload. cbn.
  rewrite Hcol. cbn.
  change (s_dtype (getitem df column)) with (dtype_of df column).
  now destruct (dtype_of df column).
Qed.

(** X23. Every failure of [GET /filter] is an HTTP error.  An HTTP error
    of the loader is handed on as it is, status and detail; any other
    exception of the loader is answered HTTP 500 with the prefix
    "Erro ao filtrar dados: ". *)
Theorem get_filter_passes_http_errors_on
  (column operator value : string) (n : Z) (h : host) (p p' : process) (e : exn) :
  Tail.filter_data load column operator value n h p = (Raise e, p') ->
  (exists status detail, e = HTTPException status detail) /\
  (forall status detail,
     load h p = (Raise (HTTPException status detail), p') ->
     e = HTTPException status detail) /\
  (forall cause,
     load h p = (Raise cause, p') ->
     (forall status detail, cause <> HTTPException status detail) ->
     e = HTTPException 500 (Fmt "Erro ao filtrar dados: " cause)).
Proof.
  unfold Tail.filter_data. destruct (load h p) as [loaded p1].
  intros [= H <-]. apply try_except_Raise in H as (cause & Hc & ->).
  split; [destruct cause; eauto|]. split.
  - intros status detail [= ->]. simpl in Hc. now injection Hc as <-.
  - intros cause' [= ->] Hno. simpl in Hc. injection Hc as <-.
    destruct cause' as [| | |st m]; try reflexivity. now destruct (Hno st m).
Qed.

(** X24. [POST /filter_advanced] with a first filter on a column that the
    frame does not have answers HTTP 500: the 400 raised for the column is
    caught and wrapped. *)
Theorem advanced_missing_column_is_a_500
  (first : FilterRequest) (rest : list FilterRequest)
  (h : host) (p p' : process) (df : DataFrame) :
  load h p = (Ok df, p') ->
  has_column df (column first) = false ->
  Tail.filter_advanced load (first :: rest) h p =
  (Raise (HTTPException 500
            (Fmt "Erro ao aplicar filtros: "
                 (HTTPException 400
                    (Text ("Coluna '" +:+ column first +:+ "' não encontrada"))))),
   p').
Proof.
  intros Hload Hcol. unfold Tail.filter_advanced. rewrite Hload. cbn.
  unfold Tail.apply_one. now rewrite Hcol.
Qed.

(** X25. [GET /filter] counts the matching rows before it caps them:
    [total_matches] is the number of rows of the loaded frame that match,
    [returned_count] is the smaller of [limit] and [total_matches], and
    [data] holds [returned_count] records. *)
Theorem get_filter_reports_both_counts
  (column operator value : string) (n : Z) (h : host) (p p' : process)
  (resp : Tail.FilterResponse) :
  Tail.filter_data load column operator value n h p = (Ok resp, p') ->
  1 <= n ->
  exists df matches,
    load h p = (Ok df, p') /\
    sublist (rows matches) (rows df) /\
    Tail.total_matches resp = len matches /\
    Tail.total_matches resp <= len df /\
    Tail.returned_count resp = Z.min n (Tail.total_matches resp) /\
    Tail.data resp = Tail.to_dict (df_head n matches) /\
    Z.of_nat (length (Tail.data resp)) = Tail.returned_count resp.
Proof.
  unfold Tail.filter_data. destruct (load h p) as [loaded p1].
  intros [= H <-] Hn. apply try_except_Ok in H.
  apply bind_Ok in H as (df & -> & H).
  destruct (negb (has_column df column)); [discriminate|].
  apply bind_Ok in H as ([v matches] & Hm & [= <-]).
  assert (Hmask : exists m, matches = getmask df m).
  { repeat match type of Hm with
    | (if ?b then _ else _) = _ => destruct b
    | (match ?d with object => _ | _ => _ end) = _ => destruct d
    | (_ ≫= _) = Ok _ => apply bind_Ok in Hm as (? & ? & Hm)
    end; try discriminate;
    try (injection Hm as _ <-; eauto). }
  destruct Hmask as (m & ->).
  assert (Hsub : sublist (rows (getmask df m)) (rows df)) by apply select_sublist.
  exists df, (getmask df m). cbn [Tail.total_matches Tail.returned_count Tail.data].
  pose proof (sublist_length _ _ Hsub) as Hlen.
  repeat split; try assumption.
  - unfold len. lia.
  - unfold len, df_head. cbn [rows]. destruct (Z.leb_spec 0 n); [|lia].
    rewrite List.length_firstn. lia.
  - unfold Tail.to_dict, len. now rewrite List.length_map.
Qed.

(** X26. A value that is no number: [GET /filter] answers HTTP 400 for
    [eq] on a numeric column, but HTTP 500 for [gt], [lt], [gte] and
    [lte], whose [float(value)] nothing catches before the last
    [except]. *)
Theorem get_filter_bad_number
  (column operator value : string) (n : Z) (h : host) (p p' : process)
  (df : DataFrame) (msg : string) :
  load h p = (Ok df, p') ->
  has_column df column = true ->
  Tail.py_float value = Raise (ValueError msg) ->
  (operator = "eq" -> Tail.is_numeric (dtype_of df column) = true ->
   Tail.filter_data load column operator value n h p =
   (Raise (HTTPException 400
             (Text ("Valor '" +:+ value +:+ "' inválido para coluna numérica"))),
    p')) /\
  (operator = "gt" \/ operator = "lt" \/ operator = "gte" \/ operator = "lte" ->
   Tail.filter_data load column operator value n h p =
   (Raise (HTTPException 500 (Fmt "Erro ao filtrar dados: " (ValueError msg))),
    p')).
Proof.
  intros Hload Hcol Hval. unfold Tail.filter_data. rewrite Hload. cbn.
  rewrite Hcol. cbn. split.
  - intros -> Hnum. cbn. unfold Tail.coerce_eq.
    change (s_dtype (getitem df column)) with (dtype_of df column).
    rewrite Hnum, Hval. reflexivity.
  - intros Hop.
    destruct Hop as [Hop|[Hop|[Hop|Hop]]]; subst operator; cbn;
      rewrite Hval; reflexivity.
Qed.

End Handlers.

Lemma apply_one_columns (df df' : DataFrame) (f : FilterRequest) :
  Tail.apply_one df f = Ok df' -> columns df' = columns df.
Proof.
  unfold Tail.apply_one.
  destruct (negb (has_column df (column f))); [discriminate|].
  destruct (String.eqb (operator f) "eq"); [|now intros [= <-]].
  intros H. apply bind_Ok in H as (v & _ & H).
  apply bind_Ok in H as (m & _ & [= <-]). reflexivity.
Qed.

(** X27. The loop of [POST /filter_advanced] acts on [eq] only: filters
    with any other operator, on columns of the frame, change nothing, and
    the frame it ends with is the one the [eq] filters alone give. *)
Theorem advanced_ignores_other_operators
  (filters : list FilterRequest) (df : DataFrame) :
  Forall (fun f => has_column df (column f) = true) filters ->
  Tail.apply_all df filters =
  Tail.apply_all df
    (List.filter (fun f => String.eqb (operator f) "eq") filters).
Proof.
  revert df. induction filters as [|f filters IH]; intros df Hall; [reflexivity|].
  apply Forall_cons in Hall as (Hf & Hall). simpl.
  destruct (String.eqb (operator f) "eq") eqn:E.
  - simpl. destruct (Tail.apply_one df f) as [df'| |] eqn:E1; try reflexivity.
    simpl. apply IH. apply apply_one_columns in E1.
    eapply Forall_impl; [exact Hall|]. intros g Hg. unfold has_column in *.
    now rewrite E1.
  - unfold Tail.apply_one at 1. rewrite Hf, E. simpl. now apply IH.
Qed.

Lemma post_filter_fails_with_400_witness :
  exists cause,
    Sample.post (Sample.request "tip_amount" "eq" (One (PInt 2)) None)
    = Raise (HTTPException 400 (Fmt "Erro no filtro: " cause)).
Proof.
  destruct (Main.filter_data Main.load_parquet_data
              (Sample.request "tip_amount" "eq" (One (PInt 2)) None)
              Sample.app Sample.fresh) as [r p'] eqn:E.
  assert (Hr : exists e, r = Raise e).
  { vm_compute in E. injection E as <- _. eauto. }
  destruct Hr as (e & ->).
  destruct (post_filter_fails_with_400 _ _ _ _ _ _ E) as (cause & -> & _).
  exists cause. unfold Sample.post. now rewrite E.
Defined.

Lemma post_filter_counts_witness :
  exists resp,
    Sample.post (Sample.request "passenger_count" "gte" (One (PInt 2)) (Some 2))
      = Ok resp /\
    Main.filtered_count resp <= Main.total_records resp.
Proof.
  destruct (Main.filter_data Main.load_parquet_data
              (Sample.request "passenger_count" "gte" (One (PInt 2)) (Some 2))
              Sample.app Sample.fresh) as [r p'] eqn:E.
  assert (Hr : exists resp, r = Ok resp).
  { vm_compute in E. injection E as <- _. eauto. }
  destruct Hr as (resp & ->).
  destruct (post_filter_counts _ _ _ _ _ _ E) as (df & _ & _ & _ & H).
  exists resp. unfold Sample.post. rewrite E. auto.
Defined.

Lemma preview_returns_the_first_rows_witness :
  exists resp,
    fst (Main.preview Main.load_parquet_data 10 Sample.app Sample.fresh) = Ok resp /\
    Main.Preview.preview_count resp = 4.
Proof.
  destruct (Main.preview Main.load_parquet_data 10 Sample.app Sample.fresh)
    as [r p'] eqn:E.
  assert (Hr : exists resp, r = Ok resp).
  { vm_compute in E. injection E as <- _. eauto. }
  destruct Hr as (resp & ->).
  destruct (preview_returns_the_first_rows _ _ _ _ _ _ E) as
    (df & Hload & _ & Hc & _); [lia|].
  exists resp. split; [reflexivity|]. rewrite Hc.
  vm_compute in Hload. injection Hload as <- _. reflexivity.
Defined.

Lemma unique_of_a_missing_column_is_a_500_witness :
  fst (Main.get_unique_values Main.load_parquet_data Sample.no_counts
         "tip_amount" 100 Sample.app Sample.fresh) =
  Raise (HTTPException 500
           (Fmt "Erro ao obter valores únicos: "
                (HTTPException 404 (Text "Coluna 'tip_amount' não encontrada")))).
Proof.
  rewrite (unique_of_a_missing_column_is_a_500 Main.load_parquet_data
             Sample.no_counts "tip_amount" 100 Sample.app Sample.fresh
             (snd (Main.load_parquet_data Sample.app Sample.fresh))
             (Main.optimize Sample.app Sample.trips)).
  - reflexivity.
  - vm_compute. reflexivity.
  - reflexivity.
Defined.

Lemma get_filter_refuses_contains_off_text_witness :
  Sample.get "fare_amount" "contains" "1" 1000 =
  Raise (HTTPException 400
           (Text "Operador 'contains' só funciona com colunas de texto")).
Proof.
  unfold Sample.get.
  rewrite (get_filter_refuses_contains_off_text Tail.load_parquet_data
             "fare_amount" "1" 1000 Sample.app Sample.fresh
             (snd (Tail.load_parquet_data Sample.app Sample.fresh))
             Sample.trips).
  - reflexivity.
  - vm_compute. reflexivity.
  - reflexivity.
  - discriminate.
Defined.

Lemma get_filter_passes_http_errors_on_witness :
  fst (Tail.filter_data Sample.down "passenger_count" "eq" "2" 1000
         Sample.app Sample.fresh) =
  Raise (HTTPException 503 (Text "down")).
Proof.
  destruct (Tail.filter_data Sample.down "passenger_count" "eq" "2" 1000
              Sample.app Sample.fresh) as [r p'] eqn:E.
  assert (Hr : exists e, r = Raise e /\ p' = Sample.fresh).
  { vm_compute in E. injection E as <- <-. eauto. }
  destruct Hr as (e & -> & ->).
  destruct (get_filter_passes_http_errors_on _ _ _ _ _ _ _ _ _ E) as (_ & H & _).
  simpl. rewrite (H 503 (Text "down")); reflexivity.
Defined.

Lemma advanced_missing_column_is_a_500_witness :
  fst (Tail.filter_advanced Tail.load_parquet_data
         [Sample.request "tip_amount" "eq" (One (PInt 1)) None]
         Sample.app Sample.fresh) =
  Raise (HTTPException 500
           (Fmt "Erro ao aplicar filtros: "
                (HTTPException 400 (Text "Coluna 'tip_amount' não encontrada")))).
Proof.
  rewrite (advanced_missing_column_is_a_500 Tail.load_parquet_data
             (Sample.request "tip_amount" "eq" (One (PInt 1)) None) []
             Sample.app Sample.fresh
             (snd (Tail.load_parquet_data Sample.app Sample.fresh))
             Sample.trips).
  - reflexivity.
  - vm_compute. reflexivity.
  - reflexivity.
Defined.

Lemma advanced_ignores_other_operators_witness :
  Tail.apply_all Sample.trips
    [Sample.request "fare_amount" "gt" (One (PInt 15)) None;
     Sample.request "passenger_count" "eq" (One (PInt 2)) None]
  = Ok (Sample.pick [1; 2]).
Proof.
  rewrite (advanced_ignores_other_operators
             [Sample.request "fare_amount" "gt" (One (PInt 15)) None;
              Sample.request "passenger_count" "eq" (One (PInt 2)) None]
             Sample.trips).
  - vm_compute. reflexivity.
  - repeat constructor.
Defined.

Lemma get_filter_reports_both_counts_witness :
  exists resp,
    Sample.get "passenger_count" "gte" "2" 2 = Ok resp /\
    Tail.returned_count resp = Z.min 2 (Tail.total_matches resp).
Proof.
  destruct (Tail.filter_data Tail.load_parquet_data "passenger_count" "gte" "2" 2
              Sample.app Sample.fresh) as [r p'] eqn:E.
  assert (Hr : exists resp, r = Ok resp).
  { vm_compute in E. injection E as <- _. eauto. }
  destruct Hr as (resp & ->).
  destruct (get_filter_reports_both_counts _ _ _ _ _ _ _ _ _ E) as
    (df & matches & _ & _ & _ & _ & H & _); [lia|].
  exists resp. unfold Sample.get. rewrite E. auto.
Defined.

Lemma get_filter_bad_number_witness :
  Sample.get "fare_amount" "eq" "abc" 10 =
    Raise (HTTPException 400 (Text "Valor 'abc' inválido para coluna numérica")) /\
  Sample.get "fare_amount" "gt" "abc" 10 =
    Raise (HTTPException 500
             (Fmt "Erro ao filtrar dados: "
                  (ValueError "could not convert string to float: 'abc'"))).
Proof.
  destruct (get_filter_bad_number Tail.load_parquet_data "fare_amount" "eq" "abc"
              10 Sample.app Sample.fresh
              (snd (Tail.load_parquet_data Sample.app Sample.fresh))
              Sample.trips "could not convert string to float: 'abc'")
    as (H1 & _); [reflexivity | reflexivity | reflexivity |].
  destruct (get_filter_bad_number Tail.load_parquet_data "fare_amount" "gt" "abc"
              10 Sample.app Sample.fresh
              (snd (Tail.load_parquet_data Sample.app Sample.fresh))
              Sample.trips "could not convert string to float: 'abc'")
    as (_ & H2); [reflexivity | reflexivity | reflexivity |].
  unfold Sample.get. rewrite H1, H2 by auto. split; reflexivity.
Defined.

(** ** A column that the loader made categorical *)

(** C7. [between] does not answer on every column.  The loader of line 39
    turns a text column with few distinct values into a categorical one
    (lines 99-100); on it [between "A" "Z"] is refused with HTTP 400, for
    pandas orders no unordered categorical, and [POST /filter] answers 400.
    The loader of line 427 leaves that column as it was read, and there
    the same filter returns the rows whose flag is within the bounds: all
    five. *)
Theorem between_is_refused_on_a_categorical_column :
  (exists df,
      fst (Main.load_parquet_data Sample.flagged_app Sample.fresh) = Ok df /\
      dtype_of df "store_and_fwd_flag" = category /\
      rows df = rows Sample.flagged /\
      Main.apply_filter df Sample.flag_between =
      Raise (HTTPException 400
               (Fmt "Erro no filtro: "
                    (TypeError
                       "Unordered Categoricals can only compare equality or not")))) /\
  fst (Main.filter_data Main.load_parquet_data Sample.flag_between
         Sample.flagged_app Sample.fresh) =
  Raise (HTTPException 400
           (Fmt "Erro no filtro: "
                (HTTPException 400
                   (Fmt "Erro no filtro: "
                        (TypeError
                           "Unordered Categoricals can only compare equality or not"))))) /\
  fst (Tail.load_parquet_data Sample.flagged_app Sample.fresh) = Ok Sample.flagged /\
  dtype_of Sample.flagged "store_and_fwd_flag" = object /\
  Main.apply_filter Sample.flagged Sample.flag_between = Ok Sample.flagged /\
  Forall (fun r => inclusive_text "A" "Z"
                     (cell_at Sample.flagged "store_and_fwd_flag" r) = true)
         (rows Sample.flagged).
Proof.
  split; [|repeat split; try reflexivity; repeat constructor].
  eexists. split; [vm_compute; reflexivity|]. repeat split.
Qed.

(** ** The two sets of definitions, side by side *)

(** C1.  The loader that the module's globals hold once the whole file has
    run (line 427) keeps no cache: called twice in one process, on the
    example host, it returns the frame twice and reads storage twice, where
    the loader of line 39 reads it once. *)
Theorem second_loader_reads_storage_again :
  (let '(r1, r2, p) := Sample.twice Tail.load_parquet_data in
   r1 = Ok Sample.trips /\ r2 = Ok Sample.trips /\
   DATA_CACHE p = ∅ /\
   reads p = [Sample.data_dir; Sample.data_dir]) /\
  (let '(r1, r2, p) := Sample.twice Main.load_parquet_data in
   r1 = Ok Sample.trips /\ r2 = Ok Sample.trips /\
   reads p = [Sample.data_dir]).
Proof. vm_compute. repeat split. Qed.

(** C2.  [POST /filter] with [limit = 2] on a filter that three rows match:
    the two rows returned are the first two matches, and the count it
    reports, [filtered_count], is 2, the number of rows returned, not 3;
    [GET /filter] reports both numbers. *)
Theorem filtered_count_is_the_capped_count :
  exists (resp : Main.FilterResponse) (resp' : Tail.FilterResponse),
    Sample.post (Sample.request "passenger_count" "gte" (One (PInt 2)) (Some 2))
      = Ok resp /\
    Main.apply_filter Sample.trips
      (Sample.request "passenger_count" "gte" (One (PInt 2)) None)
      = Ok (Sample.pick [1; 2; 3]) /\
    Main.data resp = List.map (Main.row_dict Sample.trips)
                              (rows (Sample.pick [1; 2])) /\
    Main.filtered_count resp = 2 /\
    Main.total_records resp = 4 /\
    Sample.get "passenger_count" "gte" "2" 2 = Ok resp' /\
    Tail.total_matches resp' = 3 /\
    Tail.returned_count resp' = 2.
Proof.
  eexists. eexists.
  split; [vm_compute; reflexivity|].
  split; [vm_compute; reflexivity|].
  split; [vm_compute; reflexivity|].
  split; [reflexivity|]. split; [reflexivity|].
  split; [vm_compute; reflexivity|].
  split; reflexivity.
Qed.

(** C3.  [apply_filter] compares the value as it arrives.  On the [int64]
    column [passenger_count], [eq] with the text ["2"] matches no row
    although two rows hold 2, and [eq] with ["abc"] answers with no row and
    no error; [GET /filter] converts ["2"] to 2 and finds both rows, and
    rejects ["abc"]. *)
Theorem apply_filter_does_not_coerce :
  Main.apply_filter Sample.trips
    (Sample.request "passenger_count" "eq" (One (PStr "2")) (Some 1000))
    = Ok (Sample.pick []) /\
  Main.apply_filter Sample.trips
    (Sample.request "passenger_count" "eq" (One (PInt 2)) (Some 1000))
    = Ok (Sample.pick [1; 2]) /\
  Main.apply_filter Sample.trips
    (Sample.request "passenger_count" "eq" (One (PStr "abc")) (Some 1000))
    = Ok (Sample.pick []) /\
  (exists resp, Sample.get "passenger_count" "eq" "2" 1000 = Ok resp /\
                Tail.total_matches resp = 2) /\
  Sample.get "passenger_count" "eq" "abc" 1000
    = Raise (HTTPException 400
               (Text "Valor 'abc' inválido para coluna numérica")).
Proof.
  repeat split; try (vm_compute; reflexivity).
  eexists. split; vm_compute; reflexivity.
Qed.

(** C4.  [apply_filter] turns the column into text before searching it.
    [contains "2"] on the [int64] column [passenger_count] is answered,
    with the rows that hold 2, instead of being refused; and on the text
    column [store_and_fwd_flag], [contains "non"] returns the row whose
    flag is null, found in the text "None".  [GET /filter] refuses the
    first and finds nothing for the second. *)
Theorem contains_searches_the_text_of_any_column :
  Main.apply_filter Sample.trips
    (Sample.request "passenger_count" "contains" (One (PStr "2")) (Some 1000))
    = Ok (Sample.pick [1; 2]) /\
  Main.apply_filter Sample.trips
    (Sample.request "store_and_fwd_flag" "contains" (One (PStr "non")) (Some 1000))
    = Ok (Sample.pick [1]) /\
  cell_at Sample.trips "store_and_fwd_flag" (1, [Int 2; Flt (lit 20); Null]) = Null /\
  Sample.get "passenger_count" "contains" "2" 1000
    = Raise (HTTPException 400
               (Text "Operador 'contains' só funciona com colunas de texto")) /\
  (exists resp, Sample.get "store_and_fwd_flag" "contains" "non" 1000 = Ok resp /\
                Tail.total_matches resp = 0).
Proof.
  repeat split; try (vm_compute; reflexivity).
  eexists. split; vm_compute; reflexivity.
Qed.

(** C6.  [apply_filter] splits a text value of [in] at the commas and
    strips the pieces, and leaves them texts: on the [int64] column
    [passenger_count], [in "1, 3"] matches no row, where the list [1, 3]
    matches two; [GET /filter] converts the pieces and finds the two. *)
Theorem in_list_elements_are_not_coerced :
  Main.apply_filter Sample.trips
    (Sample.request "passenger_count" "in" (One (PStr "1, 3")) (Some 1000))
    = Ok (Sample.pick []) /\
  Main.apply_filter Sample.trips
    (Sample.request "passenger_count" "in" (Many [PInt 1; PInt 3]) (Some 1000))
    = Ok (Sample.pick [0; 3]) /\
  Main.apply_filter Sample.trips
    (Sample.request "passenger_count" "in" (Many [PInt 3; PInt 1]) (Some 1000))
    = Ok (Sample.pick [0; 3]) /\
  (exists resp, Sample.get "passenger_count" "in" "1, 3" 1000 = Ok resp /\
                Tail.total_matches resp = 2).
Proof.
  repeat split; try (vm_compute; reflexivity).
  eexists. split; vm_compute; reflexivity.
Qed.

End ApiFacts.
